(** * Theros Data Entry IQ: the measurement store and the summary engine

    A shallow embedding of [app.py]: the utility functions ([mean],
    [pct_change], [simple_trend]), the three request handlers
    ([create_measurement], [list_measurements], [get_insights]) and
    [compute_summary], followed by the properties of the specification.

    Conventions of the embedding.
    - A Python exception is a [Raise] in the [result] monad; a handler that
      lets one escape answers the request with status 500.
    - Python numbers are [pyfloat]: a finite value is kept as an exact
      rational (an [int] is a rational with denominator one), next to the two
      infinities and NaN, which [float()] and the JSON decoder both accept.
      Binary64 rounding and overflow of finite arithmetic are not modelled:
      the properties below relate the results of the code to expressions in
      the same operations, or use comparisons only.
    - A string is the byte sequence of its UTF-8 form.  [int()] and
      [float()] read it as Python 3.11 does: characters outside ASCII are
      mapped first, [int()] stops at 4300 digits, [float()] leaves the
      range of the finite floats at both ends.
    - The SQLite table is the list of its rows in insertion order.  SQLite's
      [date()] is a parameter of the store section; [ORDER BY measured_at] is
      a stable sort on the bytes of the text column.
    - The clock is an input: [today] is the proleptic Gregorian ordinal of
      the current UTC date (as [date.toordinal()]). *)

From Stdlib Require Import ZArith QArith Qabs Qround Qpower Lia Lqa PrimFloat.
From Stdlib Require Import Ascii String Sorting.Sorted.
From stdpp Require Import base tactics option list sorting gmap strings pretty.

Local Open Scope Z_scope.

(** ** Exceptions *)

Inductive exn :=
  | ValueError | TypeError | OverflowError | ZeroDivisionError | IndexError.

Inductive result (A : Type) :=
  | Ok (a : A)
  | Raise (e : exn).
Arguments Ok {A} a.
Arguments Raise {A} e.

#[global] Instance result_ret : MRet result := λ A, Ok.
#[global] Instance result_bind : MBind result := λ A B f m,
  match m with Ok a => f a | Raise e => Raise e end.

(** [for x in l: ... f(x) ...] collecting the results, stopping at the first
    exception. *)
Fixpoint traverse {A B} (f : A → result B) (l : list A) : result (list B) :=
  match l with
  | [] => Ok []
  | x :: l' => y ← f x; ys ← traverse f l'; Ok (y :: ys)
  end.

(** [l[i]] for a Python list, negative indices counting from the end. *)
Definition getitem {A} (l : list A) (i : Z) : result A :=
  let j := if i <? 0 then Z.of_nat (length l) + i else i in
  if j <? 0 then Raise IndexError
  else match l !! Z.to_nat j with
       | Some x => Ok x
       | None => Raise IndexError
       end.

(** ** Numbers *)

Inductive pyfloat :=
  | Fin (q : Q)
  | Inf (negative : bool)
  | NaN.

Definition of_Z (z : Z) : pyfloat := Fin (inject_Z z).
Definition of_nat (n : nat) : pyfloat := of_Z (Z.of_nat n).

Definition Qneg (q : Q) : bool := (Qnum q <? 0)%Z.
Definition Qlt_bool (a b : Q) : bool := negb (Qle_bool b a).

Definition fneg (x : pyfloat) : pyfloat :=
  match x with
  | Fin q => Fin (- q)
  | Inf s => Inf (negb s)
  | NaN => NaN
  end.

Definition fabs (x : pyfloat) : pyfloat :=
  match x with
  | Fin q => Fin (Qabs q)
  | Inf _ => Inf false
  | NaN => NaN
  end.

Definition fadd (x y : pyfloat) : pyfloat :=
  match x, y with
  | NaN, _ | _, NaN => NaN
  | Fin a, Fin b => Fin (a + b)
  | Inf s, Inf t => if Bool.eqb s t then Inf s else NaN
  | Inf s, Fin _ | Fin _, Inf s => Inf s
  end.

Definition fsub (x y : pyfloat) : pyfloat := fadd x (fneg y).

Definition fmul (x y : pyfloat) : pyfloat :=
  match x, y with
  | NaN, _ | _, NaN => NaN
  | Fin a, Fin b => Fin (a * b)
  | Inf s, Inf t => Inf (xorb s t)
  | Inf s, Fin q | Fin q, Inf s =>
      if Qeq_bool q 0 then NaN else Inf (xorb s (Qneg q))
  end.

(** The quotient for a divisor that is not zero; see [truediv]. *)
Definition fdiv (x y : pyfloat) : pyfloat :=
  match x, y with
  | NaN, _ | _, NaN => NaN
  | Fin a, Fin b => Fin (a / b)
  | Inf _, Inf _ => NaN
  | Inf s, Fin q => Inf (xorb s (Qneg q))
  | Fin _, Inf _ => Fin 0
  end.

(** [x == y], [x < y], [x <= y]: every comparison with NaN is false. *)
Definition feqb (x y : pyfloat) : bool :=
  match x, y with
  | Fin a, Fin b => Qeq_bool a b
  | Inf s, Inf t => Bool.eqb s t
  | _, _ => false
  end.

Definition fltb (x y : pyfloat) : bool :=
  match x, y with
  | NaN, _ | _, NaN => false
  | Fin a, Fin b => Qlt_bool a b
  | Inf s, Inf t => s && negb t
  | Inf s, Fin _ => s
  | Fin _, Inf t => negb t
  end.

Definition fleb (x y : pyfloat) : bool := fltb x y || feqb x y.

(** [x / y]: Python raises on a zero divisor, for ints and floats alike. *)
Definition truediv (x y : pyfloat) : result pyfloat :=
  if feqb y (of_Z 0) then Raise ZeroDivisionError else Ok (fdiv x y).

(** The builtin [sum]: additions from the left, starting at the int 0. *)
Definition sum (xs : list pyfloat) : pyfloat := fold_left fadd xs (of_Z 0).

(** ** Utility functions *)

(** [[x for x in xs if x is not None]] *)
Definition present {A} (xs : list (option A)) : list A := omap id xs.

Definition mean (xs : list (option pyfloat)) : result (option pyfloat) :=
  let xs := present xs in
  match xs with
  | [] => Ok None
  | _ => q ← truediv (sum xs) (of_nat (length xs)); Ok (Some q)
  end.

(** [old] and [new] are optional because the source tests [old is None] and
    because [None - old] is the [TypeError] that its [except] clause turns
    into [None]. *)
Definition pct_change (old new : option pyfloat) : option pyfloat :=
  let body : result (option pyfloat) :=
    match old with
    | None => Ok None
    | Some o =>
        if feqb o (of_Z 0) then Ok None
        else match new with
             | None => Raise TypeError
             | Some nw =>
                 q ← truediv (fsub nw o) (fabs o);
                 Ok (Some (fmul q (of_Z 100)))
             end
    end in
  match body with
  | Ok r => r
  | Raise _ => None
  end.

Definition simple_trend (values : list (option pyfloat))
  : result (option pyfloat) :=
  let vals := present values in
  if (length vals <? 2)%nat then Ok None
  else
    let n := Z.of_nat (length values) in
    let xs := seqZ 0 n in
    let ys := map (λ v, match v with Some v => v | None => of_Z 0 end) values in
    x_mean ← truediv (sum (of_Z <$> xs)) (of_Z n);
    y_mean ← truediv (sum ys) (of_Z n);
    num_terms ← traverse (λ i,
        x ← getitem xs i; y ← getitem ys i;
        Ok (fmul (fsub (of_Z x) x_mean) (fsub y y_mean))) (seqZ 0 n);
    let num := sum num_terms in
    den_terms ← traverse (λ i,
        x ← getitem xs i;
        let d := fsub (of_Z x) x_mean in Ok (fmul d d)) (seqZ 0 n);
    let den := sum den_terms in
    if feqb den (of_Z 0) then Ok (Some (of_Z 0))
    else slope ← truediv num den; Ok (Some slope).

(** ** The builtins [int()] and [float()] on request data *)

(** A decoded JSON value, as [request.json] hands it to the handler. *)
#[local] Unset Elimination Schemes.
Inductive json :=
  | JNull
  | JBool (b : bool)
  | JInt (z : Z)
  | JFloat (x : pyfloat)
  | JStr (s : string)
  | JArr (items : list json)
  | JObj (members : list (string * json)).
#[local] Set Elimination Schemes.

Definition code (c : ascii) : N := N_of_ascii c.

(** White space as the parsers of [int()] and [float()] skip it at both
    ends: tab to carriage return, and the blank. *)
Definition is_space (c : ascii) : bool :=
  let k := code c in
  ((9 <=? k) && (k <=? 13) || (k =? 32))%N.

Definition digit_val (c : ascii) : option Z :=
  let k := code c in
  if ((48 <=? k) && (k <=? 57))%N then Some (Z.of_N k - 48) else None.

Definition lower (c : ascii) : ascii :=
  let k := code c in
  if ((65 <=? k) && (k <=? 90))%N then ascii_of_N (k + 32) else c.

Fixpoint lstrip (l : list ascii) : list ascii :=
  match l with
  | c :: r => if is_space c then lstrip r else l
  | [] => []
  end.

Definition strip (l : list ascii) : list ascii :=
  rev (lstrip (rev (lstrip l))).

(** A Python string is text, kept here as the bytes of its UTF-8 form.
    Before they parse, [int()] and [float()] replace every character
    outside ASCII: white space by a blank, a decimal digit of any script
    by its ASCII digit, anything else by a question mark, which no number
    contains. *)
Definition continuation (b : N) : bool := ((128 <=? b) && (b <? 192))%N.

Definition replacement : N := 65533%N.

(** The code points of a byte string; a byte that starts no well-formed
    sequence decodes to U+FFFD. *)
Fixpoint utf8_decode (l : list ascii) : list N :=
  match l with
  | [] => []
  | a0 :: r =>
      let b0 := code a0 in
      if (b0 <? 128)%N then b0 :: utf8_decode r
      else
        match r with
        | [] => [replacement]
        | a1 :: r1 =>
            let b1 := code a1 in
            if ((194 <=? b0) && (b0 <? 224) && continuation b1)%N then
              ((b0 - 192) * 64 + (b1 - 128))%N :: utf8_decode r1
            else
              match r1 with
              | [] => replacement :: utf8_decode r
              | a2 :: r2 =>
                  let b2 := code a2 in
                  let c3 := ((b0 - 224) * 4096 + (b1 - 128) * 64
                             + (b2 - 128))%N in
                  if ((224 <=? b0) && (b0 <? 240) && continuation b1
                      && continuation b2 && (2048 <=? c3)
                      && negb ((55296 <=? c3) && (c3 <? 57344)))%N then
                    c3 :: utf8_decode r2
                  else
                    match r2 with
                    | [] => replacement :: utf8_decode r
                    | a3 :: r3 =>
                        let b3 := code a3 in
                        let c4 := ((b0 - 240) * 262144 + (b1 - 128) * 4096
                                   + (b2 - 128) * 64 + (b3 - 128))%N in
                        if ((240 <=? b0) && (b0 <? 245) && continuation b1
                            && continuation b2 && continuation b3
                            && (65536 <=? c4) && (c4 <? 1114112))%N then
                          c4 :: utf8_decode r3
                        else replacement :: utf8_decode r
                    end
              end
        end
  end.

(** The characters outside ASCII for which [str.isspace] holds. *)
Definition unicode_spaces : list N :=
  [133; 160; 5760; 8192; 8193; 8194; 8195; 8196; 8197; 8198; 8199; 8200;
   8201; 8202; 8232; 8233; 8239; 8287; 12288]%N.

(** The digit zero of every script with decimal digits outside ASCII
    (Unicode 14.0, the tables of Python 3.11); the nine code points after
    each are its digits one to nine. *)
Definition unicode_zeros : list N :=
  [1632; 1776; 1984; 2406; 2534; 2662; 2790; 2918; 3046; 3174; 3302; 3430;
   3558; 3664; 3792; 3872; 4160; 4240; 6112; 6160; 6470; 6608; 6784; 6800;
   6992; 7088; 7232; 7248; 42528; 43216; 43264; 43472; 43504; 43600; 44016;
   65296; 66720; 68912; 69734; 69872; 69942; 70096; 70384; 70736; 70864;
   71248; 71360; 71472; 71904; 72016; 72784; 73040; 73120; 92768; 92864;
   93008; 120782; 120792; 120802; 120812; 120822; 123200; 123632; 125264;
   130032]%N.

Definition unicode_decimal (c : N) : option N :=
  (λ z, (c - z)%N)
    <$> List.find (λ z, (z <=? c) && (c <? z + 10))%N unicode_zeros.

Definition to_ascii (c : N) : ascii :=
  if (c <? 128)%N then ascii_of_N c
  else if existsb (N.eqb c) unicode_spaces then " "%char
  else match unicode_decimal c with
       | Some d => ascii_of_N (48 + d)
       | None => "?"%char
       end.

(** The text that the two parsers read. *)
Definition ascii_text (s : string) : list ascii :=
  map to_ascii (utf8_decode (list_ascii_of_string s)).

(** Digits after a first digit, each optionally preceded by one underscore. *)
Fixpoint digitpart_tail (l : list ascii) : list Z * list ascii :=
  match l with
  | c :: r =>
      match digit_val c with
      | Some d => let '(ds, r') := digitpart_tail r in (d :: ds, r')
      | None =>
          if Ascii.eqb c "_" then
            match r with
            | c2 :: r2 =>
                match digit_val c2 with
                | Some d => let '(ds, r') := digitpart_tail r2 in (d :: ds, r')
                | None => ([], l)
                end
            | [] => ([], l)
            end
          else ([], l)
      end
  | [] => ([], [])
  end.

Definition digitpart (l : list ascii) : option (list Z * list ascii) :=
  match l with
  | c :: r =>
      match digit_val c with
      | Some d => let '(ds, r') := digitpart_tail r in Some (d :: ds, r')
      | None => None
      end
  | [] => None
  end.

Definition digits_value (ds : list Z) : Z :=
  fold_left (λ acc d, 10 * acc + d) ds 0.

(** An optional sign: [true] for a minus. *)
Definition sign (l : list ascii) : bool * list ascii :=
  match l with
  | c :: r =>
      if Ascii.eqb c "-" then (true, r)
      else if Ascii.eqb c "+" then (false, r)
      else (false, l)
  | [] => (false, [])
  end.

(** The most digits that [int()] converts (the default of
    [sys.set_int_max_str_digits]). *)
Definition int_max_str_digits : Z := 4300.

(** [int(s)] for a string, base ten. *)
Definition int_of_string (s : string) : result Z :=
  let '(neg, l) := sign (strip (ascii_text s)) in
  match digitpart l with
  | Some (ds, []) =>
      if int_max_str_digits <? Z.of_nat (length ds) then Raise ValueError
      else Ok (if neg then - digits_value ds else digits_value ds)
  | _ => Raise ValueError
  end.

(** The exponent of a decimal literal: [e] or [E], a sign, digits. *)
Definition exponent (l : list ascii) : option (Z * list ascii) :=
  match l with
  | c :: r =>
      if Ascii.eqb (lower c) "e" then
        let '(neg, r1) := sign r in
        match digitpart r1 with
        | Some (ds, r2) =>
            Some (if neg then - digits_value ds else digits_value ds, r2)
        | None => None
        end
      else Some (0, l)
  | [] => Some (0, [])
  end.

(** [digits [. digits] [exponent]] or [. digits [exponent]], as a rational. *)
Definition decimal (l : list ascii) : option Q :=
  let '(ints, r1) := match digitpart l with
                     | Some p => p
                     | None => ([], l)
                     end in
  let '(fracs, r2) := match r1 with
                      | c :: r =>
                          if Ascii.eqb c "." then
                            match digitpart r with
                            | Some p => p
                            | None => ([], r)
                            end
                          else ([], r1)
                      | [] => ([], [])
                      end in
  match ints ++ fracs with
  | [] => None
  | ds =>
      match exponent r2 with
      | Some (e, []) =>
          Some (inject_Z (digits_value ds)
                * Qpower 10 (e - Z.of_nat (length fracs)))%Q
      | _ => None
      end
  end.

(** The range of the finite floats: a number of magnitude 2^1024 - 2^970
    or more rounds to an infinity, one of magnitude 2^-1075 or less to
    zero. *)
Definition float_max_int : Z := 2 ^ 1024 - 2 ^ 970.

Definition in_float_range (q : Q) : pyfloat :=
  if Qle_bool (inject_Z float_max_int) (Qabs q) then Inf (Qneg q)
  else if Qle_bool (Qabs q) (1 # 2 ^ 1075) then Fin 0
  else Fin q.

(** [float(s)] for a string. *)
Definition float_of_string (s : string) : result pyfloat :=
  let '(neg, l) := sign (strip (ascii_text s)) in
  let word := string_of_list_ascii (map lower l) in
  if String.eqb word "inf" || String.eqb word "infinity" then Ok (Inf neg)
  else if String.eqb word "nan" then Ok NaN
  else match decimal l with
       | Some q => Ok (in_float_range (if neg then - q else q))
       | None => Raise ValueError
       end.

(** The quotient of the truncation [int(x)] of a finite float. *)
Definition Qtrunc (q : Q) : Z := Z.quot (Qnum q) (Zpos (Qden q)).

Definition py_int (v : json) : result Z :=
  match v with
  | JBool b => Ok (if b then 1 else 0)
  | JInt z => Ok z
  | JFloat (Fin q) => Ok (Qtrunc q)
  | JFloat (Inf _) => Raise OverflowError
  | JFloat NaN => Raise ValueError
  | JStr s => int_of_string s
  | JNull | JArr _ | JObj _ => Raise TypeError
  end.

(** An int converts to a float unless it rounds to 2^1024. *)
Definition py_float (v : json) : result pyfloat :=
  match v with
  | JBool b => Ok (of_Z (if b then 1 else 0))
  | JInt z =>
      if Z.abs z <? float_max_int then Ok (of_Z z) else Raise OverflowError
  | JFloat x => Ok x
  | JStr s => float_of_string s
  | JNull | JArr _ | JObj _ => Raise TypeError
  end.

(** [v in (None, "")] and [v in (None, "", "null")]: a tuple membership test
    compares with [==], which only [None] and the same string pass. *)
Definition is_str (v : json) (s : string) : bool :=
  match v with
  | JStr t => String.eqb t s
  | _ => false
  end.

Definition is_none (v : json) : bool :=
  match v with
  | JNull => true
  | _ => false
  end.

(** ** The measurement store *)

(** A row of the table [measurements].  [resting_hr] is the INTEGER column,
    the four REAL columns hold floats, NULL is [None]. *)
Record measurement := {
  rowid : Z;
  measured_at : string;
  resting_hr : option Z;
  hrv : option pyfloat;
  respiratory_rate : option pyfloat;
  body_temp : option pyfloat;
  spo2 : option pyfloat;
  notes : option string;
  created_at : string
}.

(** The body of a POST: a JSON object.  The embedding covers the bodies
    whose measured_at and notes are a string or missing, which is what the
    two TEXT columns hold; the numeric fields are looked up in the decoded
    object and may be any JSON value. *)
Record payload := {
  p_measured_at : option string;
  p_notes : option string;
  p_data : gmap string json
}.

(** The two clock readings of an insert: [datetime.utcnow().isoformat()] and
    SQLite's [datetime('now')]. *)
Record clock := {
  utcnow_isoformat : string;
  sqlite_now : string
}.

(** [data.get(key)] *)
Definition get (data : gmap string json) (key : string) : json :=
  default JNull (data !! key).

(** The inner function [n] of [create_measurement]. *)
Definition n (data : gmap string json) (key : string)
  : result (option pyfloat) :=
  let v := get data key in
  if is_none v || is_str v "" || is_str v "null" then Ok None
  else x ← py_float v; Ok (Some x).

(** Binding a parameter: sqlite3 refuses an int outside 64 bits, SQLite
    stores a NaN as NULL. *)
Definition bind_int (v : option Z) : result (option Z) :=
  match v with
  | Some z =>
      if (- 2 ^ 63 <=? z) && (z <? 2 ^ 63) then Ok (Some z)
      else Raise OverflowError
  | None => Ok None
  end.

Definition bind_real (v : option pyfloat) : option pyfloat :=
  match v with
  | Some NaN => None
  | _ => v
  end.

(** AUTOINCREMENT: one more than the largest rowid so far. *)
Definition next_rowid (db : list measurement) : Z :=
  1 + foldr (λ r acc, Z.max (rowid r) acc) 0 db.

Definition create_measurement (now : clock) (req : payload)
    (db : list measurement) : result (list measurement * measurement) :=
  let data := p_data req in
  let measured_at :=
    match p_measured_at req with
    | Some s => if String.eqb s "" then utcnow_isoformat now else s
    | None => utcnow_isoformat now
    end in
  let resting_hr := get data "resting_hr" in
  let resting_hr :=
    match (if is_none resting_hr || is_str resting_hr "" then Ok None
           else z ← py_int resting_hr; Ok (Some z)) with
    | Ok r => r
    | Raise _ => None
    end in
  hrv ← n data "hrv";
  respiratory_rate ← n data "respiratory_rate";
  body_temp ← n data "body_temp";
  spo2 ← n data "spo2";
  let notes := p_notes req in
  resting_hr ← bind_int resting_hr;
  let row := {| rowid := next_rowid db;
                measured_at := measured_at;
                resting_hr := resting_hr;
                hrv := bind_real hrv;
                respiratory_rate := bind_real respiratory_rate;
                body_temp := bind_real body_temp;
                spo2 := bind_real spo2;
                notes := notes;
                created_at := sqlite_now now |} in
  Ok (db ++ [row], row).

(** The status line of a handler: the one it returns, or 500 when an
    exception escapes. *)
Definition status {A} (returned : nat) (r : result A) : nat :=
  match r with
  | Ok _ => returned
  | Raise _ => 500%nat
  end.

(** [ORDER BY measured_at ASC]: text compares bytewise; rows with the same
    text keep their table order. *)
Fixpoint insert_row (r : measurement) (l : list measurement)
  : list measurement :=
  match l with
  | [] => [r]
  | x :: l' =>
      if String.ltb (measured_at x) (measured_at r) then x :: insert_row r l'
      else r :: l
  end.

Definition order_by_measured_at (rows : list measurement)
  : list measurement :=
  foldr insert_row [] rows.

(** A query-string argument is used when it is a non-empty string. *)
Definition truthy (arg : option string) : bool :=
  match arg with
  | Some s => negb (String.eqb s "")
  | None => false
  end.

Section Store.

(** SQLite's [date()]: the calendar date of a timestamp text as
    [YYYY-MM-DD], or NULL. *)
Variable date : string → option string.

(** [date(measured_at) >= ?] *)
Definition date_ge (lo : string) (r : measurement) : bool :=
  match date (measured_at r) with
  | Some d => String.leb lo d
  | None => false
  end.

(** [date(measured_at) BETWEEN ? AND ?] *)
Definition date_between (lo hi : string) (r : measurement) : bool :=
  match date (measured_at r) with
  | Some d => String.leb lo d && String.leb d hi
  | None => false
  end.

Definition list_measurements (since until : option string)
    (db : list measurement) : result (list measurement) :=
  let rows :=
    if truthy since && truthy until then
      order_by_measured_at
        (filter (λ r, date_between (default "" since) (default "" until) r)
                db)
    else if truthy since then
      order_by_measured_at (filter (λ r, date_ge (default "" since) r) db)
    else order_by_measured_at db in
  Ok rows.

End Store.

(** ** Calendar dates *)

(** [timedelta(days=k)] *)
Definition timedelta (k : Z) : result Z :=
  if Z.abs k <=? 999999999 then Ok k else Raise OverflowError.

(** [d - delta] on ordinals; [datetime] covers the years 1 to 9999. *)
Definition max_ordinal : Z := 3652059.

Definition date_sub (d delta : Z) : result Z :=
  let r := d - delta in
  if (1 <=? r) && (r <=? max_ordinal) then Ok r else Raise OverflowError.

Definition days_before_month (month : Z) : Z :=
  nth (Z.to_nat month)
      [-1; 0; 31; 59; 90; 120; 151; 181; 212; 243; 273; 304; 334] 0.

Definition days_in_month (month : Z) : Z :=
  nth (Z.to_nat month) [-1; 31; 28; 31; 30; 31; 30; 31; 31; 30; 31; 30; 31] 0.

(** [datetime._ord2ymd]: year, month and day of an ordinal. *)
Definition ord2ymd (ordinal : Z) : Z * Z * Z :=
  let n := ordinal - 1 in
  let n400 := n / 146097 in
  let n := n mod 146097 in
  let year := n400 * 400 + 1 in
  let n100 := n / 36524 in
  let n := n mod 36524 in
  let n4 := n / 1461 in
  let n := n mod 1461 in
  let n1 := n / 365 in
  let n := n mod 365 in
  let year := year + n100 * 100 + n4 * 4 + n1 in
  if (n1 =? 4) || (n100 =? 4) then (year - 1, 12, 31)
  else
    let leapyear := (n1 =? 3) && (negb (n4 =? 24) || (n100 =? 3)) in
    let month := Z.shiftr (n + 50) 5 in
    let preceding :=
      days_before_month month
      + (if (2 <? month) && leapyear then 1 else 0) in
    let '(month, preceding) :=
      if n <? preceding then
        (month - 1,
         preceding - (days_in_month (month - 1)
                      + (if (month - 1 =? 2) && leapyear then 1 else 0)))
      else (month, preceding) in
    (year, month, n - preceding + 1).

(** [%0wd] for a number that is not negative. *)
Definition zero_pad (width : nat) (z : Z) : string :=
  let s := pretty (Z.to_N z) in
  string_of_list_ascii (replicate (width - String.length s) "0"%char) +:+ s.

(** [date.isoformat()] *)
Definition isoformat (ordinal : Z) : string :=
  let '(y, m, d) := ord2ymd ordinal in
  zero_pad 4 y +:+ "-" +:+ zero_pad 2 m +:+ "-" +:+ zero_pad 2 d.

(** ** The summary engine *)

Inductive metric := RestingHr | Hrv | RespiratoryRate | BodyTemp | Spo2.

(** [it.get(key)] for the five metrics; the INTEGER column reads as an int. *)
Definition it_get (it : measurement) (key : metric) : option pyfloat :=
  match key with
  | RestingHr => of_Z <$> resting_hr it
  | Hrv => hrv it
  | RespiratoryRate => respiratory_rate it
  | BodyTemp => body_temp it
  | Spo2 => spo2 it
  end.

Record stat := {
  s_first : option pyfloat;
  s_last : option pyfloat;
  s_avg : option pyfloat;
  s_change_pct : option pyfloat;
  s_slope : option pyfloat
}.

Record summary := {
  days : Z;
  dates : list string;
  series : metric → list (option pyfloat);
  stats : metric → stat;
  anomalies : list string
}.

(** [round(x, 1)]: to the nearest tenth, ties to the even one. *)
Definition round_half_even (q : Q) : Z :=
  let f := Qfloor q in
  match (q - inject_Z f ?= 1 # 2)%Q with
  | Lt => f
  | Gt => f + 1
  | Eq => if Z.even f then f else f + 1
  end.

Definition round1 (x : pyfloat) : pyfloat :=
  match x with
  | Fin q => Fin (inject_Z (round_half_even (q * 10)) / 10)
  | _ => x
  end.

(** [round(x, 1)] where [x] may be [None] *)
Definition py_round1 (x : option pyfloat) : result pyfloat :=
  match x with
  | Some v => Ok (round1 v)
  | None => Raise TypeError
  end.

(** [by_day[it["measured_at"][:10]] = it] for every item in turn. *)
Definition build_by_day (items : list measurement) : gmap string measurement :=
  fold_left (λ by_day it, <[substring 0 10 (measured_at it) := it]> by_day)
            items ∅.

(** The body of the loop over the five keys. *)
Definition key_stats (vals : list (option pyfloat)) : result stat :=
  let last := head (present (reverse vals)) in
  avg ← mean (Some <$> present vals);
  let first := head (present vals) in
  let change_pct :=
    match first, last with
    | Some _, Some _ => pct_change first last
    | _, _ => None
    end in
  slope ← simple_trend vals;
  Ok {| s_first := first; s_last := last; s_avg := avg;
        s_change_pct := change_pct; s_slope := slope |}.

Section Summary.

(** SQLite's [date()] and the text of a float in an f-string. *)
Variable date : string → option string.
Variable float_repr : pyfloat → string.

(** The loop over [enumerate(series["date"])], appending to [anomalies]. *)
Fixpoint anomaly_loop (body_temp spo2 : list (option pyfloat))
    (enum : list (Z * string)) (anomalies : list string)
  : result (list string) :=
  match enum with
  | [] => Ok anomalies
  | (idx, d) :: enum' =>
      t ← getitem body_temp idx;
      let anomalies :=
        match t with
        | Some t =>
            if fleb (Fin 38) t
            then anomalies ++ [d +:+ ": high temp " +:+ float_repr t +:+ "°C"]
            else anomalies
        | None => anomalies
        end in
      s ← getitem spo2 idx;
      let anomalies :=
        match s with
        | Some s =>
            if fltb s (of_Z 94)
            then anomalies ++ [d +:+ ": low SpO₂ " +:+ float_repr s +:+ "%"]
            else anomalies
        | None => anomalies
        end in
      anomaly_loop body_temp spo2 enum' anomalies
  end.

Definition compute_summary (today : Z) (days : Z) (db : list measurement)
  : result summary :=
  delta ← timedelta (days - 1);
  cutoff ← date_sub today delta;
  let cutoff := isoformat cutoff in
  let items := order_by_measured_at (filter (λ r, date_ge date cutoff r) db) in
  let by_day := build_by_day items in
  days_list ← traverse (λ i,
      delta ← timedelta (days - 1 - i);
      d ← date_sub today delta;
      Ok (isoformat d)) (seqZ 0 days);
  let slot (key : metric) (d : string) : option pyfloat :=
    match by_day !! d with
    | Some it => it_get it key
    | None => None
    end in
  let series (key : metric) := map (slot key) days_list in
  resting_hr ← key_stats (series RestingHr);
  hrv ← key_stats (series Hrv);
  respiratory_rate ← key_stats (series RespiratoryRate);
  body_temp ← key_stats (series BodyTemp);
  spo2 ← key_stats (series Spo2);
  let stats (key : metric) :=
    match key with
    | RestingHr => resting_hr
    | Hrv => hrv
    | RespiratoryRate => respiratory_rate
    | BodyTemp => body_temp
    | Spo2 => spo2
    end in
  anomalies ← anomaly_loop (series BodyTemp) (series Spo2)
                (zip (seqZ 0 (Z.of_nat (length days_list))) days_list) [];
  Ok {| days := days; dates := days_list; series := series;
        stats := stats; anomalies := anomalies |}.

(** One rule of the narrative: the sentence for resting HR or for HRV. *)
Definition change_rule (label unit : string) (threshold : pyfloat)
    (st : stat) (parts : list string) : result (list string) :=
  match s_first st, s_last st with
  | Some _, Some _ =>
      match s_change_pct st with
      | Some c =>
          if fleb threshold (fabs c) then
            let direction :=
              if fltb (of_Z 0) c then "increased" else "decreased" in
            let c1 := round1 c in
            a1 ← py_round1 (s_avg st);
            Ok (parts ++ [label +:+ " " +:+ direction +:+ " by "
                          +:+ float_repr c1 +:+ "% (avg "
                          +:+ float_repr a1 +:+ " " +:+ unit +:+ ")."])
          else Ok parts
      | None => Ok parts
      end
  | _, _ => Ok parts
  end.

(** The rule-based text that [get_insights] builds from a summary. *)
Definition deterministic_insight (s : summary) : result string :=
  let parts := [] in
  parts ← change_rule "Resting HR" "bpm" (of_Z 3) (stats s RestingHr) parts;
  parts ← change_rule "HRV" "ms" (of_Z 6) (stats s Hrv) parts;
  let parts :=
    match anomalies s with
    | [] => parts
    | _ => parts ++ ["Anomalies: " +:+ String.concat "; " (anomalies s)]
    end in
  Ok (match parts with
      | [] => "No notable changes detected in the last period."
      | _ => String.concat " " parts
      end).

Record insights := {
  deterministic : string;
  ai : option string;
  insights_summary : summary
}.

(** The completion call of the optional collaborator, when configured. *)
Variable openai : option (summary → result string).

Definition get_insights (today : Z) (days : option string)
    (db : list measurement) : result insights :=
  days ← match days with
         | Some s => int_of_string s
         | None => Ok 7
         end;
  summary ← compute_summary today days db;
  deterministic_insight ← deterministic_insight summary;
  let ai_insight :=
    match openai with
    | Some complete =>
        match complete summary with
        | Ok text => Some text
        | Raise _ => None
        end
    | None => None
    end in
  Ok {| deterministic := deterministic_insight; ai := ai_insight;
        insights_summary := summary |}.

End Summary.

(** ** Stand-ins for evaluation

    The theorems below hold for every [date] and every [float_repr].  To run
    the model on examples the two parameters are instantiated by the
    functions of this section, which agree with SQLite and with Python on the
    inputs named in their comments. *)

Definition two_digits (l : list ascii) : option (Z * list ascii) :=
  match l with
  | a :: b :: r =>
      match digit_val a, digit_val b with
      | Some x, Some y => Some (10 * x + y, r)
      | _, _ => None
      end
  | _ => None
  end.

Definition is_leap (year : Z) : bool :=
  (year mod 4 =? 0) && (negb (year mod 100 =? 0) || (year mod 400 =? 0)).

(** [YYYY-MM-DD] naming a day of the calendar, and what follows it. *)
Definition ymd_prefix (l : list ascii) : option (list ascii) :=
  '(c, l) ← two_digits l;
  '(y, l) ← two_digits l;
  '(m, l) ← match l with
            | d :: l => if Ascii.eqb d "-" then two_digits l else None
            | [] => None
            end;
  '(d, l) ← match l with
            | d :: l => if Ascii.eqb d "-" then two_digits l else None
            | [] => None
            end;
  let dim := days_in_month m
             + (if (m =? 2) && is_leap (100 * c + y) then 1 else 0) in
  if (1 <=? m) && (m <=? 12) && (1 <=? d) && (d <=? dim) then Some l
  else None.

(** [HH:MM], [HH:MM:SS] or [HH:MM:SS.f...] with hours below 24. *)
Definition hms (l : list ascii) : bool :=
  match two_digits l with
  | Some (h, c1 :: l) =>
      match two_digits l with
      | Some (m, l) =>
          Ascii.eqb c1 ":" && (h <? 24) && (m <? 60) &&
          match l with
          | [] => true
          | c2 :: l =>
              match two_digits l with
              | Some (s, l) =>
                  Ascii.eqb c2 ":" && (s <? 60) &&
                  match l with
                  | [] => true
                  | c3 :: f :: l =>
                      Ascii.eqb c3 "." &&
                      forallb (λ c, bool_decide (is_Some (digit_val c)))
                              (f :: l)
                  | _ => false
                  end
              | None => false
              end
          end
      | None => false
      end
  | _ => false
  end.

(** SQLite's [date()] on a text of the form [YYYY-MM-DD] or
    [YYYY-MM-DD(T| )HH:MM[:SS[.fff]]] that names a day of the calendar: the
    date is the first ten characters.  Other texts (time zones, day numbers,
    days past the end of a month) are NULL here, not always in SQLite. *)
Definition plain_date (s : string) : option string :=
  match ymd_prefix (list_ascii_of_string s) with
  | Some [] => Some (substring 0 10 s)
  | Some (sep :: time) =>
      if (Ascii.eqb sep "T" || Ascii.eqb sep " ") && hms time
      then Some (substring 0 10 s) else None
  | None => None
  end.

(** Digits of the fractional part [r / den], at most [fuel] of them. *)
Fixpoint frac_digits (fuel : nat) (r den : Z) : string :=
  match fuel with
  | O => ""
  | S fuel' =>
      if r =? 0 then ""
      else pretty (Z.to_N (10 * r / den))
           +:+ frac_digits fuel' (10 * r mod den) den
  end.

(** The text of a float whose decimal expansion ends within 17 places, in
    positional notation, as Python prints it between 1e-4 and 1e16. *)
Definition decimal_repr (x : pyfloat) : string :=
  match x with
  | Fin q =>
      let num := Z.abs (Qnum q) in
      let den := Zpos (Qden q) in
      let frac := frac_digits 17 (num mod den) den in
      (if Qneg q then "-" else "")
      +:+ pretty (Z.to_N (num / den)) +:+ "."
      +:+ (if String.eqb frac "" then "0" else frac)
  | Inf false => "inf"
  | Inf true => "-inf"
  | NaN => "nan"
  end.

(** ** Specification-side definitions *)

(** The statistics as the specification words them. *)
Definition spec_change_pct (first last : option pyfloat) : option pyfloat :=
  match first, last with
  | Some f, Some l =>
      if feqb f (of_Z 0) then None
      else Some (fmul (fdiv (fsub l f) (fabs f)) (of_Z 100))
  | _, _ => None
  end.

(** The regression input of [simple_trend]: a missing value counts as 0. *)
Definition zero_filled (values : list (option pyfloat)) : list pyfloat :=
  map (λ v, match v with Some v => v | None => of_Z 0 end) values.

(** The least-squares slope of value against zero-based day index in
    closed form, in the arithmetic of the program: the sum over the days of
    the products of the two deviations from the means, over the sum of the
    squared deviations of the day index (what the specification calls the
    day-index variance). *)
Definition day_index_mean (n : Z) : pyfloat :=
  fdiv (sum (of_Z <$> seqZ 0 n)) (of_Z n).

Definition day_index_variance (n : Z) : pyfloat :=
  sum ((λ i, fmul (fsub (of_Z i) (day_index_mean n))
                  (fsub (of_Z i) (day_index_mean n))) <$> seqZ 0 n).

Definition least_squares_slope (ys : list pyfloat) : pyfloat :=
  let n := Z.of_nat (length ys) in
  let y_mean := fdiv (sum ys) (of_Z n) in
  fdiv (sum (zip_with (λ i y, fmul (fsub (of_Z i) (day_index_mean n))
                                   (fsub y y_mean)) (seqZ 0 n) ys))
       (day_index_variance n).

(** The same slope over exact rationals, as the minimiser of the squared
    residuals. *)
Definition Qsum (l : list Q) : Q := fold_right Qplus 0%Q l.

(** The points of the regression, for values that are finite. *)
Definition finite_or_zero (v : option pyfloat) : Q :=
  match v with
  | Some (Fin q) => q
  | _ => 0%Q
  end.

Definition is_finite (x : pyfloat) : Prop :=
  match x with
  | Fin _ => True
  | _ => False
  end.

Definition day_points (values : list (option pyfloat)) : list (Q * Q) :=
  zip (inject_Z <$> seqZ 0 (Z.of_nat (length values)))
      (finite_or_zero <$> values).

(** The sum of squared residuals of the line [y = a + b x]. *)
Definition sse (pts : list (Q * Q)) (a b : Q) : Q :=
  Qsum (map (λ p, (p.2 - (a + b * p.1)) ^ 2)%Q pts).

(** [b] is the slope of a line that minimises the squared residuals. *)
Definition ols_slope (pts : list (Q * Q)) (b : Q) : Prop :=
  ∃ a, ∀ a' b', (sse pts a b <= sse pts a' b')%Q.

(** The mean of the day indices and the sum of their squared deviations. *)
Definition trend_x_mean (n : Z) : Q :=
  (fold_left Qplus (inject_Z <$> seqZ 0 n) 0 / inject_Z n)%Q.

Definition trend_den (n : Z) : Q :=
  fold_left Qplus
    (map (λ i, (inject_Z i + - trend_x_mean n)
               * (inject_Z i + - trend_x_mean n))%Q (seqZ 0 n)) 0%Q.

(** The [N] dates of the window, oldest first, and the rows the summary
    query fetches for it. *)
Definition window (today days : Z) : list string :=
  (λ i, isoformat (today - (days - 1 - i))) <$> seqZ 0 days.

Definition fetched (date : string → option string) (today days : Z)
    (db : list measurement) : list measurement :=
  order_by_measured_at
    (filter (λ r, date_ge date (isoformat (today - (days - 1))) r) db).

(** The day a row is filed under: [it["measured_at"][:10]]. *)
Definition day_key (it : measurement) : string :=
  substring 0 10 (measured_at it).

Definition slot (by_day : gmap string measurement) (key : metric)
    (d : string) : option pyfloat :=
  match by_day !! d with
  | Some it => it_get it key
  | None => None
  end.

Section SummarySpec.

Variable float_repr : pyfloat → string.

Definition high_temp (d : string) (t : pyfloat) : string :=
  d +:+ ": high temp " +:+ float_repr t +:+ "°C".

Definition low_spo2 (d : string) (s : pyfloat) : string :=
  d +:+ ": low SpO₂ " +:+ float_repr s +:+ "%".

(** The flags of one day: the temperature check, then the oxygen check. *)
Definition day_flags (d : string) (t s : option pyfloat) : list string :=
  match t with
  | Some t => if fleb (Fin 38) t then [high_temp d t] else []
  | None => []
  end
  ++ match s with
     | Some s => if fltb s (of_Z 94) then [low_spo2 d s] else []
     | None => []
     end.

(** The flags of the days of the window, in the order of the days. *)
Fixpoint spec_anomalies (dates : list string)
    (body_temp spo2 : list (option pyfloat)) : list string :=
  match dates, body_temp, spo2 with
  | d :: dates, t :: body_temp, s :: spo2 =>
      day_flags d t s ++ spec_anomalies dates body_temp spo2
  | _, _, _ => []
  end.

(** "{label} {increased|decreased} by {change_pct}% (avg {avg} {unit})."
    with both numbers rounded to one decimal. *)
Definition change_sentence (label unit : string) (change_pct avg : pyfloat)
  : string :=
  label +:+ " "
  +:+ (if fltb (of_Z 0) change_pct then "increased" else "decreased")
  +:+ " by " +:+ float_repr (round1 change_pct) +:+ "% (avg "
  +:+ float_repr (round1 avg) +:+ " " +:+ unit +:+ ").".

(** A rule fires when [change_pct] is present and at least [threshold] in
    absolute value. *)
Definition spec_rule (label unit : string) (threshold : pyfloat)
    (st : stat) : list string :=
  match s_change_pct st, s_avg st with
  | Some c, Some a =>
      if fleb threshold (fabs c) then [change_sentence label unit c a]
      else []
  | _, _ => []
  end.

Definition spec_anomaly_rule (anomalies : list string) : list string :=
  match anomalies with
  | [] => []
  | _ => ["Anomalies: " +:+ String.concat "; " anomalies]
  end.

Definition spec_narrative (s : summary) : string :=
  let parts :=
    spec_rule "Resting HR" "bpm" (of_Z 3) (stats s RestingHr)
    ++ spec_rule "HRV" "ms" (of_Z 6) (stats s Hrv)
    ++ spec_anomaly_rule (anomalies s) in
  match parts with
  | [] => "No notable changes detected in the last period."
  | _ => String.concat " " parts
  end.

End SummarySpec.

(** ** A small table for examples

    Three days ending on 2024-01-05 (ordinal 738890).  The last day has
    three rows: row 3 is the earliest of them although it was inserted
    after row 2, and row 4 repeats the timestamp of row 2. *)

Definition example_row (i : Z) (at_ : string) (rhr : Z)
    (hrv_ temp spo2_ : option pyfloat) : measurement :=
  {| rowid := i; measured_at := at_; resting_hr := Some rhr; hrv := hrv_;
     respiratory_rate := None; body_temp := temp; spo2 := spo2_;
     notes := None; created_at := "2024-01-05 12:00:00" |}.

Definition example_db : list measurement :=
  [ example_row 1 "2024-01-03T08:00:00" 60
      (Some (Fin 50)) (Some (Fin 38.2)) (Some (Fin 90));
    example_row 2 "2024-01-05T09:00:00" 66
      (Some (Fin 40)) None None;
    example_row 3 "2024-01-05T07:00:00" 63
      (Some (Fin 45)) (Some (Fin 37)) (Some (Fin 97));
    example_row 4 "2024-01-05T09:00:00" 67
      (Some (Fin 44)) (Some (Fin 36.6)) (Some (Fin 93.5)) ].

Definition example_today : Z := 738890.

(** [a] is not after [b] in the order of the text column. *)
Definition at_most (a b : measurement) : Prop :=
  String.leb (measured_at a) (measured_at b) = true.

(** [a] comes before [b] in ascending [measured_at] order, the row inserted
    first coming first among rows with the same text. *)
Definition before (a b : measurement) : Prop :=
  String.ltb (measured_at a) (measured_at b) = true
  ∨ (measured_at a = measured_at b ∧ rowid a < rowid b).

(** Rowids grow in insertion order. *)
Definition rowids_increase (db : list measurement) : Prop :=
  StronglySorted (λ a b, rowid a < rowid b) db.

(** A filter argument that is a calendar date [YYYY-MM-DD]. *)
Definition well_formed_date (s : string) : bool :=
  match ymd_prefix (list_ascii_of_string s) with
  | Some [] => true
  | _ => false
  end.

(** The WHERE clause that [list_measurements] runs for its two arguments. *)
Definition where_clause (date : string → option string)
    (since until : option string) (r : measurement) : bool :=
  if truthy since && truthy until then
    date_between date (default "" since) (default "" until) r
  else if truthy since then date_ge date (default "" since) r
  else true.

(** Payloads of the examples. *)
Definition example_clock : clock :=
  {| utcnow_isoformat := "2024-01-05T12:00:00.000000";
     sqlite_now := "2024-01-05 12:00:00" |}.

Definition example_payload (data : gmap string json) : payload :=
  {| p_measured_at := None; p_notes := None; p_data := data |}.

(** The arithmetic of [pct_change] on binary64 numbers, to evaluate the
    example of the specification with the rounding of the machine. *)
Definition pct_change_binary64 (old new : PrimFloat.float)
  : option PrimFloat.float :=
  if PrimFloat.eqb old 0%float then None
  else Some (PrimFloat.mul
               (PrimFloat.div (PrimFloat.sub new old) (PrimFloat.abs old))
               100%float).

(** The arithmetic of [simple_trend] on binary64 numbers, for a series
    without gaps of two values or more, to evaluate examples with the
    rounding and the overflow of the machine. *)
Fixpoint index_binary64 (i : nat) : PrimFloat.float :=
  match i with
  | O => 0%float
  | S j => PrimFloat.add (index_binary64 j) 1%float
  end.

Definition sum_binary64 (xs : list PrimFloat.float) : PrimFloat.float :=
  fold_left PrimFloat.add xs 0%float.

Definition simple_trend_binary64 (ys : list PrimFloat.float)
  : PrimFloat.float :=
  let n := index_binary64 (length ys) in
  let xs := index_binary64 <$> seq 0 (length ys) in
  let x_mean := PrimFloat.div (sum_binary64 xs) n in
  let y_mean := PrimFloat.div (sum_binary64 ys) n in
  let num :=
    sum_binary64
      (zip_with (λ x y, PrimFloat.mul (PrimFloat.sub x x_mean)
                                      (PrimFloat.sub y y_mean)) xs ys) in
  let den :=
    sum_binary64
      ((λ x, PrimFloat.mul (PrimFloat.sub x x_mean)
                           (PrimFloat.sub x x_mean)) <$> xs) in
  PrimFloat.div num den.

(** The window of [days] days ending today lies within what [timedelta]
    and [datetime] can represent. *)
Definition window_in_range (today days : Z) : Prop :=
  Z.abs (days - 1) ≤ 999999999 ∧ 1 ≤ today - (days - 1) ≤ max_ordinal.

(** [int(request.args.get("days", 7))] *)
Definition days_of_arg (arg : option string) : result Z :=
  match arg with
  | Some a => int_of_string a
  | None => Ok 7
  end.

Definition no_stat : stat :=
  {| s_first := None; s_last := None; s_avg := None; s_change_pct := None;
     s_slope := None |}.

(** [date(measured_at) <= ?] *)
Definition date_le (date : string → option string) (hi : string)
    (r : measurement) : bool :=
  match date (measured_at r) with
  | Some d => String.leb d hi
  | None => false
  end.

(** * Properties *)

(** ** The error monad *)

Lemma bind_Ok {A B} (m : result A) (f : A → result B) (b : B) :
  m ≫= f = Ok b ↔ ∃ a, m = Ok a ∧ f a = Ok b.
Proof.
  destruct m as [a|e]; simpl; split.
  - eauto.
  - by intros (a' & [= <-] & ?).
  - done.
  - by intros (a' & ? & ?).
Qed.

Lemma traverse_Ok_map {A B} (f : A → result B) (g : A → B) (l : list A) :
  (∀ x, x ∈ l → f x = Ok (g x)) → traverse f l = Ok (map g l).
Proof.
  induction l as [|x l IH]; intros Hf; simpl; [done|].
  rewrite (Hf x) by left. simpl.
  rewrite IH; [done|]. intros y Hy. apply Hf. by right.
Qed.

Lemma getitem_lookup {A} (l : list A) (i : nat) (x : A) :
  l !! i = Some x → getitem l (Z.of_nat i) = Ok x.
Proof.
  intros Hl. unfold getitem.
  assert ((Z.of_nat i <? 0) = false) as Hi by (apply Z.ltb_ge; lia).
  cbv zeta. rewrite !Hi, Nat2Z.id, Hl. done.
Qed.

(** ** Arithmetic *)

Lemma of_nat_S_nonzero (k : nat) : feqb (of_nat (S k)) (of_Z 0) = false.
Proof.
  unfold of_nat, of_Z, feqb. apply not_true_is_false.
  rewrite Qeq_bool_iff. unfold Qeq. simpl. lia.
Qed.

Lemma of_Z_nonzero (z : Z) : z ≠ 0 → feqb (of_Z z) (of_Z 0) = false.
Proof.
  intros Hz. unfold of_Z, feqb. apply not_true_is_false.
  rewrite Qeq_bool_iff. unfold Qeq. simpl. lia.
Qed.

Lemma feqb_fabs_zero (x : pyfloat) :
  feqb (fabs x) (of_Z 0) = feqb x (of_Z 0).
Proof.
  destruct x as [[num den]| |]; simpl; try done.
  apply eq_true_iff_eq. rewrite !Qeq_bool_iff. unfold Qeq. simpl. lia.
Qed.

Lemma truediv_nonzero (x y : pyfloat) :
  feqb y (of_Z 0) = false → truediv x y = Ok (fdiv x y).
Proof. intros Hy. unfold truediv. by rewrite Hy. Qed.

(** ** [mean] and [pct_change] *)

Lemma present_Some {A} (l : list A) : present (Some <$> l) = l.
Proof. induction l as [|x l IH]; simpl; [done|]. by f_equal. Qed.

Lemma present_nil_iff {A} (vals : list (option A)) :
  present vals = [] ↔ Forall (λ v, v = None) vals.
Proof.
  induction vals as [|[v|] vals IH]; simpl.
  - split; [constructor | done].
  - split; [done | by inversion 1].
  - rewrite IH. split; [by constructor | by inversion 1].
Qed.

Lemma present_reverse {A} (vals : list (option A)) :
  present (reverse vals) = reverse (present vals).
Proof.
  induction vals as [|[v|] vals IH]; simpl; [done| |].
  - rewrite !reverse_cons. unfold present in *.
    rewrite omap_app, IH. done.
  - rewrite reverse_cons. unfold present in *.
    rewrite omap_app, IH. simpl. by rewrite app_nil_r.
Qed.

Lemma mean_present (l : list pyfloat) :
  mean (Some <$> l)
  = Ok (match l with
        | [] => None
        | _ => Some (fdiv (sum l) (of_nat (length l)))
        end).
Proof.
  unfold mean. rewrite present_Some. destruct l as [|x l]; [done|].
  cbn [length]. by rewrite truediv_nonzero by apply of_nat_S_nonzero.
Qed.

Lemma pct_change_Some (f l : pyfloat) :
  pct_change (Some f) (Some l) = spec_change_pct (Some f) (Some l).
Proof.
  unfold pct_change, spec_change_pct.
  destruct (feqb f (of_Z 0)) eqn:Hf; [done|].
  by rewrite truediv_nonzero by by rewrite feqb_fabs_zero.
Qed.

(** ** Sums of finite values *)

Lemma fold_left_Qplus (l : list Q) (a : Q) :
  (fold_left Qplus l a == a + Qsum l)%Q.
Proof.
  revert a. induction l as [|x l IH]; intros a; simpl.
  - ring.
  - rewrite IH. ring.
Qed.

Lemma fold_left_fadd_Fin (l : list Q) (a : Q) :
  fold_left fadd (Fin <$> l) (Fin a) = Fin (fold_left Qplus l a).
Proof. revert a. induction l as [|x l IH]; intros a; simpl; [done|apply IH]. Qed.

Lemma Qsum_nonneg (l : list Q) : Forall (λ q, 0 <= q)%Q l → (0 <= Qsum l)%Q.
Proof.
  induction 1 as [|x l Hx _ IH]; simpl; [apply Qle_refl|].
  replace 0%Q with (0 + 0)%Q by done. by apply Qplus_le_compat.
Qed.

(** ** Least squares over the rationals *)

Section LeastSquares.

Variable pts : list (Q * Q).

Local Open Scope Q_scope.

Let S1 := Qsum (map (λ _, 1) pts).
Let Sx := Qsum (map (λ p, p.1) pts).
Let Sy := Qsum (map (λ p, p.2) pts).
Let Sxx := Qsum (map (λ p, p.1 * p.1) pts).
Let Sxy := Qsum (map (λ p, p.1 * p.2) pts).
Let Syy := Qsum (map (λ p, p.2 * p.2) pts).

Lemma sse_expand (a b : Q) :
  sse pts a b
  == Syy - 2 * a * Sy - 2 * b * Sxy + a * a * S1 + 2 * a * b * Sx
     + b * b * Sxx.
Proof.
  unfold sse, S1, Sx, Sy, Sxx, Sxy, Syy.
  induction pts as [|[x y] l IH]; simpl.
  - ring.
  - rewrite IH. ring.
Qed.

Lemma line_sq_expand (u v : Q) :
  Qsum (map (λ p, (u + v * p.1) ^ 2) pts)
  == u * u * S1 + 2 * u * v * Sx + v * v * Sxx.
Proof.
  unfold S1, Sx, Sxx.
  induction pts as [|[x y] l IH]; simpl.
  - ring.
  - rewrite IH. ring.
Qed.

Lemma covariance_expand (xm ym : Q) :
  Qsum (map (λ p, (p.1 - xm) * (p.2 - ym)) pts)
  == Sxy - xm * Sy - ym * Sx + xm * ym * S1.
Proof.
  unfold S1, Sx, Sy, Sxy.
  induction pts as [|[x y] l IH]; simpl.
  - ring.
  - rewrite IH. ring.
Qed.

Lemma variance_expand (xm : Q) :
  Qsum (map (λ p, (p.1 - xm) * (p.1 - xm)) pts)
  == Sxx - 2 * xm * Sx + xm * xm * S1.
Proof.
  unfold S1, Sx, Sxx.
  induction pts as [|[x y] l IH]; simpl.
  - ring.
  - rewrite IH. ring.
Qed.

(** A line that satisfies the two normal equations minimises the squared
    residuals. *)
Lemma normal_equations_minimise (a b : Q) :
  a * S1 + b * Sx == Sy →
  a * Sx + b * Sxx == Sxy →
  ∀ a' b', sse pts a b <= sse pts a' b'.
Proof.
  intros H1 H2 a' b'.
  assert (sse pts a' b' - sse pts a b
          == Qsum (map (λ p, ((a' - a) + (b' - b) * p.1) ^ 2) pts)) as Hd.
  { rewrite !sse_expand, line_sq_expand, <- H1, <- H2. ring. }
  apply Qle_minus_iff. unfold Qminus in Hd at 1.
  rewrite Hd. apply Qsum_nonneg, Forall_fmap, Forall_true.
  intros p. apply Qsqr_nonneg.
Qed.

(** The slope that [simple_trend] computes, from the means and the two
    sums of its source. *)
Lemma slope_is_ols (xm ym num den b : Q) :
  ¬ S1 == 0 →
  xm * S1 == Sx →
  ym * S1 == Sy →
  num == Qsum (map (λ p, (p.1 - xm) * (p.2 - ym)) pts) →
  den == Qsum (map (λ p, (p.1 - xm) * (p.1 - xm)) pts) →
  b * den == num →
  ols_slope pts b.
Proof.
  intros HS1 Hxm Hym Hnum Hden Hb.
  rewrite covariance_expand in Hnum. rewrite variance_expand in Hden.
  exists (ym - b * xm). apply normal_equations_minimise.
  - rewrite <- Hxm, <- Hym. ring.
  - rewrite Hnum, Hden, <- Hxm, <- Hym in Hb.
    rewrite <- Hxm.
    assert (Sxy == b * Sxx - b * xm * (xm * S1) + ym * (xm * S1)) as ->;
      [|ring].
    assert (Sxy == Sxy - xm * (ym * S1) - ym * (xm * S1) + xm * ym * S1
                   + ym * (xm * S1)) as -> by ring.
    rewrite <- Hb. ring.
Qed.

End LeastSquares.

(** ** [simple_trend] *)

Lemma getitem_seqZ (n i : Z) : i ∈ seqZ 0 n → getitem (seqZ 0 n) i = Ok i.
Proof.
  intros [Hi1 Hi2]%elem_of_seqZ. rewrite <- (Z2Nat.id i) at 1 by lia.
  apply getitem_lookup. rewrite lookup_seqZ_lt by lia. f_equal. lia.
Qed.

Lemma getitem_in_range {A} (l : list A) (i : Z) (d : A) :
  i ∈ seqZ 0 (Z.of_nat (length l)) →
  getitem l i = Ok (nth (Z.to_nat i) l d).
Proof.
  intros [Hi1 Hi2]%elem_of_seqZ. rewrite <- (Z2Nat.id i) at 1 by lia.
  apply getitem_lookup.
  destruct (lookup_lt_is_Some_2 l (Z.to_nat i)) as [x Hx]; [lia|].
  by rewrite (nth_lookup_Some _ _ d _ Hx).
Qed.

Lemma map_seqZ_nth {A B} (h : Z → A → B) (l : list A) (d : A) :
  map (λ i, h i (nth (Z.to_nat i) l d)) (seqZ 0 (Z.of_nat (length l)))
  = zip_with h (seqZ 0 (Z.of_nat (length l))) l.
Proof.
  apply list_eq. intros i.
  rewrite list_lookup_fmap, lookup_zip_with.
  destruct (decide (i < length l)%nat) as [Hi|Hi].
  - rewrite lookup_seqZ_lt by lia. simpl.
    destruct (lookup_lt_is_Some_2 l i Hi) as [x Hx]. rewrite Hx. simpl.
    rewrite Z.add_0_l, Nat2Z.id. f_equal. f_equal.
    by apply nth_lookup_Some with (d := d) in Hx.
  - rewrite lookup_seqZ_ge by lia. done.
Qed.

Lemma trend_den_eq (n : Z) :
  (trend_den n
   == Qsum (map (λ x, (x - trend_x_mean n) * (x - trend_x_mean n))
                (inject_Z <$> seqZ 0 n)))%Q.
Proof.
  unfold trend_den. rewrite fold_left_Qplus, Qplus_0_l.
  rewrite <- list_fmap_compose. done.
Qed.

Lemma trend_den_pos (n : Z) : 2 ≤ n → (0 < trend_den n)%Q.
Proof.
  intros Hn. rewrite trend_den_eq. generalize (trend_x_mean n). intros xm.
  rewrite seqZ_cons by lia. rewrite seqZ_cons by lia. simpl.
  set (rest := Qsum _).
  assert (0 <= rest)%Q as Hrest.
  { apply Qsum_nonneg, Forall_fmap, Forall_true. intros x. simpl.
    generalize (x - xm)%Q. intros y. nra. }
  change (inject_Z 0) with 0%Q. change (inject_Z (Z.succ 0)) with 1%Q.
  nra.
Qed.

Lemma trend_den_nonzero (n : Z) :
  2 ≤ n → feqb (Fin (trend_den n)) (of_Z 0) = false.
Proof.
  intros Hn%trend_den_pos. simpl. apply not_true_is_false.
  rewrite Qeq_bool_iff. intros Heq. rewrite Heq in Hn.
  by apply Qlt_irrefl in Hn.
Qed.

Lemma present_length_le {A} (vals : list (option A)) :
  (length (present vals) ≤ length vals)%nat.
Proof. induction vals as [|[v|] vals IH]; simpl; lia. Qed.

(** With two values or more the function returns the quotient of its two
    sums: no exception, and never the branch of a zero denominator. *)
Lemma simple_trend_quotient (values : list (option pyfloat)) :
  (2 ≤ length (present values))%nat →
  let n := Z.of_nat (length values) in
  let x_mean := Fin (trend_x_mean n) in
  let y_mean := fdiv (sum (zero_filled values)) (of_Z n) in
  simple_trend values
  = Ok (Some (fdiv
      (sum (zip_with (λ x y, fmul (fsub (of_Z x) x_mean) (fsub y y_mean))
                     (seqZ 0 n) (zero_filled values)))
      (Fin (trend_den n)))).
Proof.
  intros Hp n x_mean y_mean.
  pose proof (present_length_le values) as Hle.
  assert (2 ≤ n) as Hn by lia.
  unfold simple_trend.
  replace (length (present values) <? 2)%nat with false
    by (symmetry; apply Nat.ltb_ge; lia).
  fold n. fold (zero_filled values).
  rewrite !(truediv_nonzero _ (of_Z n)) by (apply of_Z_nonzero; lia).
  cbn [mbind result_bind].
  assert (fdiv (sum (of_Z <$> seqZ 0 n)) (of_Z n) = x_mean) as ->.
  { unfold of_Z at 1. unfold sum, x_mean, trend_x_mean.
    rewrite (list_fmap_compose inject_Z Fin).
    change (of_Z 0) with (Fin 0). by rewrite fold_left_fadd_Fin. }
  fold y_mean.
  rewrite (traverse_Ok_map _
    (λ i, fmul (fsub (of_Z i) x_mean) (fsub (of_Z i) x_mean))).
  2:{ intros i Hi. by rewrite getitem_seqZ. }
  cbn [mbind result_bind].
  rewrite (traverse_Ok_map _
    (λ i, fmul (fsub (of_Z i) x_mean)
               (fsub (nth (Z.to_nat i) (zero_filled values) (of_Z 0)) y_mean))).
  2:{ intros i Hi. rewrite getitem_seqZ by done. cbn [mbind result_bind].
      rewrite (getitem_in_range _ _ (of_Z 0)); [done|].
      unfold zero_filled. by rewrite length_map. }
  cbn [mbind result_bind].
  assert (sum (map (λ i, fmul (fsub (of_Z i) x_mean) (fsub (of_Z i) x_mean))
                   (seqZ 0 n)) = Fin (trend_den n)) as ->.
  { unfold sum, trend_den. change (of_Z 0) with (Fin 0).
    rewrite <- fold_left_fadd_Fin. f_equal.
    rewrite <- list_fmap_compose. done. }
  rewrite truediv_nonzero by by apply trend_den_nonzero.
  rewrite trend_den_nonzero by done.
  cbn [mbind result_bind]. do 4 f_equal.
  replace n with (Z.of_nat (length (zero_filled values)))
    by (unfold zero_filled; by rewrite length_map).
  apply (map_seqZ_nth (λ i y, fmul (fsub (of_Z i) x_mean) (fsub y y_mean))).
Qed.

Lemma day_index_mean_eq (n : Z) : day_index_mean n = Fin (trend_x_mean n).
Proof.
  unfold day_index_mean, of_Z at 1, sum, trend_x_mean.
  rewrite (list_fmap_compose inject_Z Fin).
  change (of_Z 0) with (Fin 0). by rewrite fold_left_fadd_Fin.
Qed.

Lemma day_index_variance_eq (n : Z) :
  day_index_variance n = Fin (trend_den n).
Proof.
  unfold day_index_variance. rewrite day_index_mean_eq.
  unfold sum, trend_den. change (of_Z 0) with (Fin 0).
  rewrite <- fold_left_fadd_Fin. f_equal.
  by rewrite <- list_fmap_compose.
Qed.

(** With two values or more the function returns the closed form of the
    least-squares slope over the zero-filled values. *)
Lemma simple_trend_closed_form (values : list (option pyfloat)) :
  (2 ≤ length (present values))%nat →
  simple_trend values = Ok (Some (least_squares_slope (zero_filled values))).
Proof.
  intros Hp. rewrite simple_trend_quotient by done. cbv zeta.
  unfold least_squares_slope.
  replace (length (zero_filled values)) with (length values)
    by (unfold zero_filled; by rewrite length_map).
  by rewrite day_index_variance_eq, day_index_mean_eq.
Qed.

Lemma simple_trend_few (values : list (option pyfloat)) :
  (length (present values) < 2)%nat → simple_trend values = Ok None.
Proof.
  intros Hp. unfold simple_trend.
  by replace (length (present values) <? 2)%nat with true
    by (symmetry; apply Nat.ltb_lt; lia).
Qed.

Lemma simple_trend_total (values : list (option pyfloat)) :
  ∃ slope, simple_trend values = Ok slope
           ∧ (slope = None ↔ (length (present values) < 2)%nat).
Proof.
  destruct (decide (length (present values) < 2)%nat) as [Hp|Hp].
  - exists None. by rewrite simple_trend_few.
  - eexists. split; [apply simple_trend_quotient; lia|]. split; [done|lia].
Qed.

Lemma zero_filled_finite (values : list (option pyfloat)) :
  Forall (λ v, ∀ x, v = Some x → is_finite x) values →
  zero_filled values = Fin <$> (finite_or_zero <$> values).
Proof.
  induction 1 as [|v values Hv _ IH]; simpl; [done|].
  rewrite IH. f_equal. destruct v as [x|]; [|done].
  specialize (Hv x eq_refl). by destruct x.
Qed.

Lemma zip_with_Fin {A} (F : A → pyfloat → pyfloat) (G : A → Q → Q)
    (l1 : list A) (l2 : list Q) :
  (∀ x y, F x (Fin y) = Fin (G x y)) →
  zip_with F l1 (Fin <$> l2) = Fin <$> zip_with G l1 l2.
Proof.
  intros HF. revert l2.
  induction l1 as [|x l1 IH]; intros [|y l2]; simpl; try done.
  by rewrite HF, IH.
Qed.

Lemma map_zip_fmap_l {A B C D} (f : B * C → D) (g : A → B)
    (l1 : list A) (l2 : list C) :
  map f (zip (g <$> l1) l2) = zip_with (λ x y, f (g x, y)) l1 l2.
Proof.
  revert l2. induction l1 as [|x l1 IH]; intros [|y l2]; simpl; try done.
  by rewrite IH.
Qed.

Lemma Qsum_ones {A} (l : list A) :
  (Qsum (map (λ _, 1) l) == inject_Z (Z.of_nat (length l)))%Q.
Proof.
  induction l as [|x l IH]; [done|].
  cbn [map Qsum fold_right length]. rewrite IH, Nat2Z.inj_succ.
  unfold Z.succ. rewrite inject_Z_plus. ring.
Qed.

(** With two finite values or more, the result is a least-squares slope of
    the points (day index, value or 0). *)
Lemma simple_trend_ols (values : list (option pyfloat)) :
  (2 ≤ length (present values))%nat →
  Forall (λ v, ∀ x, v = Some x → is_finite x) values →
  ∃ b, simple_trend values = Ok (Some (Fin b))
       ∧ ols_slope (day_points values) b.
Proof.
  intros Hp Hfin. rewrite simple_trend_quotient by done. cbv zeta.
  pose proof (present_length_le values) as Hle.
  set (n := Z.of_nat (length values)).
  set (yq := finite_or_zero <$> values).
  set (xm := trend_x_mean n).
  set (ym := (fold_left Qplus yq 0 / inject_Z n)%Q).
  rewrite (zero_filled_finite _ Hfin). fold yq.
  assert (fdiv (sum (Fin <$> yq)) (of_Z n) = Fin ym) as ->.
  { unfold sum. change (of_Z 0) with (Fin 0).
    by rewrite fold_left_fadd_Fin. }
  rewrite (zip_with_Fin _ (λ x y, (inject_Z x + - xm) * (y + - ym))%Q)
    by done.
  unfold sum. change (of_Z 0) with (Fin 0). rewrite fold_left_fadd_Fin.
  set (nq := fold_left Qplus _ _). cbn [fdiv].
  exists (nq / trend_den n)%Q. split; [done|].
  assert (length yq = length values) as Hyq by (unfold yq; by rewrite length_fmap).
  assert (length (inject_Z <$> seqZ 0 n) = length values) as Hxs.
  { rewrite length_fmap, length_seqZ. unfold n. lia. }
  assert (¬ inject_Z n == 0)%Q as Hn0.
  { unfold Qeq. simpl. lia. }
  assert (¬ trend_den n == 0)%Q as Hd0.
  { intros Heq. pose proof (trend_den_pos n ltac:(lia)) as Hpos.
    rewrite Heq in Hpos. by apply Qlt_irrefl in Hpos. }
  apply (slope_is_ols _ xm ym nq (trend_den n)).
  - rewrite Qsum_ones. unfold day_points. fold n yq.
    rewrite length_zip, Hxs, Hyq, Nat.min_id. done.
  - rewrite Qsum_ones. unfold day_points. fold n yq.
    rewrite length_zip, Hxs, Hyq, Nat.min_id. fold n.
    change (map (λ p : Q * Q, p.1)) with (fmap (M := list) (@fst Q Q)).
    rewrite fst_zip by lia.
    unfold xm, trend_x_mean. rewrite fold_left_Qplus. field. done.
  - rewrite Qsum_ones. unfold day_points. fold n yq.
    rewrite length_zip, Hxs, Hyq, Nat.min_id. fold n.
    change (map (λ p : Q * Q, p.2)) with (fmap (M := list) (@snd Q Q)).
    rewrite snd_zip by lia.
    unfold ym. rewrite fold_left_Qplus. field. done.
  - unfold nq. rewrite fold_left_Qplus, Qplus_0_l.
    unfold day_points. fold n yq. by rewrite map_zip_fmap_l.
  - rewrite trend_den_eq. fold xm. unfold day_points. fold n yq.
    rewrite <- (fst_zip (inject_Z <$> seqZ 0 n) yq) at 1 by lia.
    rewrite <- list_fmap_compose. done.
  - field. done.
Qed.

(** ** [key_stats] *)

Lemma key_stats_Ok (vals : list (option pyfloat)) :
  ∃ slope,
    simple_trend vals = Ok slope
    ∧ key_stats vals
      = Ok {| s_first := head (present vals);
              s_last := head (present (reverse vals));
              s_avg := match present vals with
                       | [] => None
                       | l => Some (fdiv (sum l) (of_nat (length l)))
                       end;
              s_change_pct := spec_change_pct (head (present vals))
                                (head (present (reverse vals)));
              s_slope := slope |}.
Proof.
  destruct (simple_trend_total vals) as (slope & Hslope & _).
  exists slope. split; [done|].
  unfold key_stats. rewrite mean_present, Hslope. cbn [mbind result_bind].
  do 2 f_equal.
  - by destruct (present vals).
  - destruct (head (present vals)) as [f|]; [|done].
    destruct (head (present (reverse vals))) as [l|]; [|done].
    apply pct_change_Some.
Qed.

(** ** [compute_summary] *)

Lemma timedelta_Ok (k d : Z) : timedelta k = Ok d → d = k.
Proof. unfold timedelta. by case_match; intros [= <-]. Qed.

Lemma date_sub_Ok (d delta r : Z) :
  date_sub d delta = Ok r → r = d - delta ∧ 1 ≤ r ≤ max_ordinal.
Proof.
  unfold date_sub.
  destruct ((1 <=? d - delta) && (d - delta <=? max_ordinal)) eqn:Hr;
    intros [= <-].
  apply andb_prop in Hr as [?%Z.leb_le ?%Z.leb_le]. done.
Qed.

Lemma traverse_Ok_fmap {A B} (f : A → result B) (g : A → B) (l : list A)
    (ys : list B) :
  (∀ x y, f x = Ok y → y = g x) → traverse f l = Ok ys → ys = g <$> l.
Proof.
  intros Hf. revert ys. induction l as [|x l IH]; intros ys; simpl.
  - by intros [= <-].
  - intros (y & Hy & (ys' & Hys & [= <-])%bind_Ok)%bind_Ok.
    f_equal; auto.
Qed.

Section SummaryFacts.

Variable date : string → option string.
Variable float_repr : pyfloat → string.

Lemma anomaly_loop_spec (body_temp spo2 : list (option pyfloat))
    (ds : list string) (k : nat) (acc : list string) :
  (k + length ds ≤ length body_temp)%nat →
  (k + length ds ≤ length spo2)%nat →
  anomaly_loop float_repr body_temp spo2
    (zip (seqZ (Z.of_nat k) (Z.of_nat (length ds))) ds) acc
  = Ok (acc ++ spec_anomalies float_repr ds (drop k body_temp)
                 (drop k spo2)).
Proof.
  revert k acc. induction ds as [|d ds IH]; intros k acc Ht Hs.
  - simpl. by rewrite app_nil_r.
  - cbn [length] in *. rewrite seqZ_cons by lia.
    cbn [zip zip_with anomaly_loop].
    destruct (lookup_lt_is_Some_2 body_temp k) as [t Hkt]; [lia|].
    destruct (lookup_lt_is_Some_2 spo2 k) as [s Hks]; [lia|].
    rewrite (getitem_lookup _ _ _ Hkt), (getitem_lookup _ _ _ Hks).
    cbn [mbind result_bind].
    replace (Z.succ (Z.of_nat k)) with (Z.of_nat (S k)) by lia.
    replace (Z.pred (Z.of_nat (S (length ds))))
      with (Z.of_nat (length ds)) by lia.
    rewrite IH by lia.
    rewrite (drop_S _ _ _ Hkt), (drop_S _ _ _ Hks).
    cbn [spec_anomalies]. unfold day_flags, high_temp, low_spo2.
    f_equal.
    destruct t as [t|]; [destruct (fleb (Fin 38) t)|];
      (destruct s as [s|]; [destruct (fltb s (of_Z 94))|]);
      by rewrite <- ?app_assoc.
Qed.

Lemma compute_summary_inv (today ndays : Z) (db : list measurement)
    (s : summary) :
  compute_summary date float_repr today ndays db = Ok s →
  days s = ndays
  ∧ dates s = window today ndays
  ∧ (∀ key, series s key
            = map (slot (build_by_day (fetched date today ndays db)) key)
                  (window today ndays))
  ∧ (∀ key, key_stats (series s key) = Ok (stats s key))
  ∧ anomalies s
    = spec_anomalies float_repr (dates s) (series s BodyTemp)
        (series s Spo2).
Proof.
  unfold compute_summary.
  intros (delta & ->%timedelta_Ok & (cutoff & [-> _]%date_sub_Ok & H)%bind_Ok)%bind_Ok.
  apply bind_Ok in H as (days_list & Hdays & H).
  apply (traverse_Ok_fmap _ (λ i, isoformat (today - (ndays - 1 - i))))
    in Hdays.
  2:{ intros i d.
      intros (k & ->%timedelta_Ok & (r & [-> _]%date_sub_Ok & [= <-])%bind_Ok)%bind_Ok.
      done. }
  fold (window today ndays) in Hdays. subst days_list.
  fold (fetched date today ndays db) in H.
  apply bind_Ok in H as (st1 & H1 & H).
  apply bind_Ok in H as (st2 & H2 & H).
  apply bind_Ok in H as (st3 & H3 & H).
  apply bind_Ok in H as (st4 & H4 & H).
  apply bind_Ok in H as (st5 & H5 & H).
  apply bind_Ok in H as (an & Han & [= <-]).
  cbn [days dates series stats anomalies].
  split_and!; try done.
  - by intros [].
  - rewrite (anomaly_loop_spec _ _ _ 0) in Han.
    + by injection Han as <-.
    + rewrite !length_map. simpl. lia.
    + rewrite !length_map. simpl. lia.
Qed.

(** The summary is computed whenever the window lies within the years
    that [datetime] covers. *)
Lemma compute_summary_returns (today ndays : Z) (db : list measurement) :
  1 ≤ ndays → ndays ≤ today → today ≤ max_ordinal →
  ∃ s, compute_summary date float_repr today ndays db = Ok s.
Proof.
  intros Hd1 Hd2 Hd3. unfold compute_summary, max_ordinal in *.
  assert (∀ k, 0 ≤ k < ndays →
               timedelta k = Ok k ∧ date_sub today k = Ok (today - k))
    as Hk.
  { intros k Hk. unfold timedelta, date_sub, max_ordinal. split.
    - by replace (Z.abs k <=? 999999999) with true
        by (symmetry; apply Z.leb_le; lia).
    - replace (1 <=? today - k) with true
        by (symmetry; apply Z.leb_le; lia).
      by replace (today - k <=? 3652059) with true
        by (symmetry; apply Z.leb_le; lia). }
  destruct (Hk (ndays - 1)) as [-> Hc]; [lia|]. cbn [mbind result_bind].
  rewrite Hc. cbn [mbind result_bind].
  rewrite (traverse_Ok_map _ (λ i, isoformat (today - (ndays - 1 - i)))).
  2:{ intros i [? ?]%elem_of_seqZ.
      destruct (Hk (ndays - 1 - i)) as [-> Hi]; [lia|].
      cbn [mbind result_bind]. by rewrite Hi. }
  cbn [mbind result_bind].
  repeat match goal with
  | |- context [key_stats ?v] =>
      destruct (key_stats_Ok v) as (? & _ & ->); cbn [mbind result_bind]
  end.
  rewrite (anomaly_loop_spec _ _ _ 0) by (rewrite !length_map; simpl; lia).
  cbn [mbind result_bind]. eauto.
Qed.

End SummaryFacts.

(** ** The statistics of a summary *)

Section SummaryClaims.

Variable date : string → option string.
Variable float_repr : pyfloat → string.

Lemma stats_of_summary (today ndays : Z) (db : list measurement)
    (s : summary) (key : metric) :
  compute_summary date float_repr today ndays db = Ok s →
  let vals := series s key in
  let st := stats s key in
  s_first st = head (present vals)
  ∧ s_last st = last (present vals)
  ∧ s_avg st = match present vals with
               | [] => None
               | l => Some (fdiv (sum l) (of_nat (length l)))
               end
  ∧ s_change_pct st = spec_change_pct (s_first st) (s_last st)
  ∧ simple_trend vals = Ok (s_slope st).
Proof.
  intros (_ & _ & _ & Hst & _)%compute_summary_inv. cbv zeta.
  specialize (Hst key).
  destruct (key_stats_Ok (series s key)) as (slope & Hslope & Hks).
  rewrite Hks in Hst. injection Hst as <-. cbn.
  by rewrite present_reverse, head_reverse.
Qed.


(** C9: in a computed summary, for each metric, first is absent exactly
    when last is absent, both are present exactly when the series has a
    non-absent slot, avg is absent exactly when every slot is absent, and
    change_pct is present whenever first and last are present and first
    is not zero. *)
Theorem stats_presence (today ndays : Z) (db : list measurement)
    (s : summary) :
  compute_summary date float_repr today ndays db = Ok s →
  ∀ key,
    let st := stats s key in
    (s_first st = None ↔ s_last st = None)
    ∧ (is_Some (s_first st) ∧ is_Some (s_last st)
       ↔ ∃ v, Some v ∈ series s key)
    ∧ (s_avg st = None ↔ Forall (λ v, v = None) (series s key))
    ∧ (∀ f l, s_first st = Some f → s_last st = Some l →
              feqb f (of_Z 0) = false → is_Some (s_change_pct st)).
Proof.
  intros Hs key. cbv zeta.
  destruct (stats_of_summary _ _ _ _ key Hs) as (H1 & H2 & H3 & H4 & _).
  rewrite H4, H1, H2, H3. clear H1 H2 H3 H4.
  assert (∀ v, v ∈ present (series s key) ↔ Some v ∈ series s key)
    as Hin.
  { intros v. unfold present. rewrite list_elem_of_omap. split.
    - by intros ([w|] & Hw & [= <-]).
    - intros Hv. by exists (Some v). }
  split_and!.
  - rewrite head_None, last_None. done.
  - destruct (present (series s key)) as [|x l] eqn:Hp.
    + split; [by intros [[? [=]] _]|].
      intros (v & Hv%Hin). by apply elem_of_nil in Hv.
    + split; [|intros _; split; [by eexists|]].
      * intros _. exists x. apply Hin. left.
      * apply not_eq_None_Some. rewrite last_None. done.
  - rewrite <- present_nil_iff. by destruct (present (series s key)).
  - intros f l -> -> Hf. simpl. rewrite Hf. by eexists.
Qed.

End SummaryClaims.

(** The same example in binary64: from 100 to 110 the result is the float
    10.0, with no rounding error left. *)
Example pct_change_binary64_example :
  pct_change_binary64 100 110 = Some 10%float
  ∧ pct_change_binary64 0 5 = None.
Proof. split; reflexivity. Qed.


Lemma stats_presence_witness :
  ∃ s, compute_summary plain_date decimal_repr example_today 3 example_db
       = Ok s
       ∧ (s_first (stats s Spo2) = None ↔ s_last (stats s Spo2) = None).
Proof.
  destruct (compute_summary plain_date decimal_repr example_today 3
              example_db) as [s|e] eqn:E.
  - exists s. split; [reflexivity|].
    apply (stats_presence _ _ _ _ _ _ E Spo2).
  - vm_compute in E. discriminate E.
Defined.

(** ** Trend, anomalies and narrative of a summary *)

Section EngineClaims.

Variable date : string → option string.
Variable float_repr : pyfloat → string.

(** C2 (amended): for every metric of a computed summary the slope is
  absent whenever the series has fewer than 2 non-absent values, which
  covers every series of length 1, so that the value 0 of the
  zero-variance branch is never produced; with 2 non-absent values or more
  it is the least-squares slope of value against zero-based day index over
  the whole series with absent values counted as 0, evaluated in its closed
  form in the arithmetic of the program, and the day-index variance it
  divides by is not zero. *)
Theorem slope_of_summary (today ndays : Z) (db : list measurement)
  (s : summary) :
compute_summary date float_repr today ndays db = Ok s →
∀ key,
  let vals := series s key in
  let slope := s_slope (stats s key) in
  ((length (present vals) < 2)%nat → slope = None)
  ∧ ((length vals ≤ 1)%nat → slope = None)
  ∧ ((2 ≤ length (present vals))%nat →
     slope = Some (least_squares_slope (zero_filled vals))
     ∧ feqb (day_index_variance (Z.of_nat (length vals))) (of_Z 0) = false).
Proof.
intros Hs key. cbv zeta.
destruct (stats_of_summary date float_repr _ _ _ _ key Hs)
  as (_ & _ & _ & _ & Hslope).
pose proof (present_length_le (series s key)) as Hle.
split_and!.
- intros Hp. rewrite simple_trend_few in Hslope by done.
  by injection Hslope as <-.
- intros Hp. rewrite simple_trend_few in Hslope by lia.
  by injection Hslope as <-.
- intros Hp. rewrite simple_trend_closed_form in Hslope by done.
  injection Hslope as <-. split; [done|].
  rewrite day_index_variance_eq. apply trend_den_nonzero. lia.
Qed.

(** C5: the anomalies of a computed summary are, for each of the N days in
  chronological order, a dated "high temp" string exactly when the body
  temperature of the day is present and at least 38.0, followed by a dated
  "low SpO₂" string exactly when the SpO₂ of the day is present and below
  94; a day that crosses both thresholds contributes exactly these two
  strings, the temperature flag first. *)
Theorem anomalies_of_summary (today ndays : Z) (db : list measurement)
  (s : summary) :
compute_summary date float_repr today ndays db = Ok s →
anomalies s
= spec_anomalies float_repr (dates s) (series s BodyTemp) (series s Spo2)
∧ length (dates s) = Z.to_nat ndays
∧ length (series s BodyTemp) = Z.to_nat ndays
∧ length (series s Spo2) = Z.to_nat ndays
∧ (∀ d t sp,
     day_flags float_repr d t sp
     = match t with
       | Some v =>
           if fleb (Fin 38) v
           then [d +:+ ": high temp " +:+ float_repr v +:+ "°C"] else []
       | None => []
       end
       ++ match sp with
          | Some w =>
              if fltb w (of_Z 94)
              then [d +:+ ": low SpO₂ " +:+ float_repr w +:+ "%"] else []
          | None => []
          end)
∧ (∀ d v w, fleb (Fin 38) v = true → fltb w (of_Z 94) = true →
            day_flags float_repr d (Some v) (Some w)
            = [high_temp float_repr d v; low_spo2 float_repr d w]).
Proof.
intros (_ & Hd & Hser & _ & Han)%compute_summary_inv.
rewrite !Hser, Hd, !length_map. unfold window.
rewrite length_fmap, length_seqZ. split_and!; try done.
- by rewrite Han, !Hser, Hd.
- intros d v w Hv Hw. unfold day_flags. by rewrite Hv, Hw.
Qed.

Lemma change_rule_spec (today ndays : Z) (db : list measurement)
  (s : summary) (key : metric) (label unit : string) (threshold : pyfloat)
  (parts : list string) :
compute_summary date float_repr today ndays db = Ok s →
change_rule float_repr label unit threshold (stats s key) parts
= Ok (parts ++ spec_rule float_repr label unit threshold (stats s key)).
Proof.
intros Hs.
destruct (stats_of_summary date float_repr _ _ _ _ key Hs)
  as (H1 & H2 & H3 & H4 & _).
unfold change_rule, spec_rule. rewrite H4.
destruct (s_first (stats s key)) as [f|] eqn:Hf;
  [|simpl; by rewrite app_nil_r].
destruct (s_last (stats s key)) as [l|] eqn:Hl;
  [|simpl; by rewrite app_nil_r].
rewrite H3. destruct (present (series s key)) as [|x xs]; [done|].
simpl. destruct (feqb f (of_Z 0)); [by rewrite app_nil_r|].
destruct (fleb threshold _); [done|by rewrite app_nil_r].
Qed.

(** On a computed summary the rules of [get_insights] produce the narrative
    of the specification; in particular [round] never meets a missing avg. *)
Lemma deterministic_insight_spec (today ndays : Z) (db : list measurement)
    (s : summary) :
  compute_summary date float_repr today ndays db = Ok s →
  deterministic_insight float_repr s = Ok (spec_narrative float_repr s).
Proof.
  intros Hs. unfold deterministic_insight, spec_narrative.
  rewrite (change_rule_spec _ _ _ _ RestingHr) by done.
  cbn [mbind result_bind].
  rewrite (change_rule_spec _ _ _ _ Hrv) by done.
  cbn [mbind result_bind]. f_equal.
  rewrite app_nil_l.
  assert (∀ parts : list string,
            match anomalies s with
            | [] => parts
            | _ => parts ++ ["Anomalies: "
                             +:+ String.concat "; " (anomalies s)]
            end = parts ++ spec_anomaly_rule (anomalies s)) as ->.
  { intros parts. unfold spec_anomaly_rule.
    destruct (anomalies s); [by rewrite app_nil_r|done]. }
  by rewrite <- app_assoc.
Qed.

Variable openai : option (summary → result string).

Lemma get_insights_inv (today : Z) (arg : option string)
    (db : list measurement) (out : insights) :
  get_insights date float_repr openai today arg db = Ok out →
  ∃ ndays,
    match arg with Some a => int_of_string a | None => Ok 7 end = Ok ndays
    ∧ compute_summary date float_repr today ndays db
      = Ok (insights_summary out)
    ∧ deterministic_insight float_repr (insights_summary out)
      = Ok (deterministic out).
Proof.
  unfold get_insights.
  intros (ndays & Hdays & (s & Hs & (text & Htext & [= <-])%bind_Ok)
    %bind_Ok)%bind_Ok.
  by exists ndays.
Qed.

(** The handler answers whenever the days argument is an integer and the
    window lies within the years that [datetime] covers. *)
Lemma get_insights_returns (today ndays : Z) (arg : option string)
    (db : list measurement) :
  match arg with Some a => int_of_string a | None => Ok 7 end = Ok ndays →
  1 ≤ ndays → ndays ≤ today → today ≤ max_ordinal →
  ∃ out, get_insights date float_repr openai today arg db = Ok out.
Proof.
  intros Harg H1 H2 H3. unfold get_insights. rewrite Harg.
  cbn [mbind result_bind].
  destruct (compute_summary_returns date float_repr today ndays db)
    as (s & Hs); [done..|].
  rewrite Hs. cbn [mbind result_bind].
  rewrite (deterministic_insight_spec _ _ _ _ Hs). cbn [mbind result_bind].
  by eexists.
Qed.

(** C6: the deterministic narrative that [get_insights] returns with a
    summary is the sentences of three rules joined by spaces: a resting-HR
    sentence exactly when the resting-HR change_pct is present with absolute
    value at least 3 ("increased" when it is positive, "decreased"
    otherwise, change_pct and avg rounded to one decimal), the same for HRV
    with threshold 6 and unit ms, and an "Anomalies: " sentence exactly when
    the anomalies are not empty; when no rule fires it is the fixed
    sentence. *)
Theorem narrative_of_insights (today : Z) (arg : option string)
    (db : list measurement) (out : insights) :
  get_insights date float_repr openai today arg db = Ok out →
  let s := insights_summary out in
  deterministic out = spec_narrative float_repr s
  ∧ spec_narrative float_repr s
    = match spec_rule float_repr "Resting HR" "bpm" (of_Z 3)
              (stats s RestingHr)
            ++ spec_rule float_repr "HRV" "ms" (of_Z 6) (stats s Hrv)
            ++ match anomalies s with
               | [] => []
               | _ => ["Anomalies: " +:+ String.concat "; " (anomalies s)]
               end with
      | [] => "No notable changes detected in the last period."
      | parts => String.concat " " parts
      end
  ∧ (∀ key, is_Some (s_change_pct (stats s key)) →
            is_Some (s_avg (stats s key)))
  ∧ (∀ label unit threshold st,
       spec_rule float_repr label unit threshold st ≠ [] ↔
       ∃ c a, s_change_pct st = Some c ∧ s_avg st = Some a
              ∧ fleb threshold (fabs c) = true
              ∧ spec_rule float_repr label unit threshold st
                = [label +:+ " "
                   +:+ (if fltb (of_Z 0) c then "increased" else "decreased")
                   +:+ " by " +:+ float_repr (round1 c) +:+ "% (avg "
                   +:+ float_repr (round1 a) +:+ " " +:+ unit +:+ ")."]).
Proof.
  intros (ndays & _ & Hs & Htext)%get_insights_inv. cbv zeta.
  split_and!.
  - rewrite (deterministic_insight_spec _ _ _ _ Hs) in Htext.
    by injection Htext.
  - unfold spec_narrative, spec_anomaly_rule. cbv zeta.
    by destruct (_ ++ _).
  - intros key.
    destruct (stats_of_summary date float_repr _ _ _ _ key Hs)
      as (H1 & _ & H3 & H4 & _).
    rewrite H4, H3, H1.
    destruct (present (series (insights_summary out) key));
      [by intros [? [=]]|by eexists].
  - intros label unit threshold st. unfold spec_rule, change_sentence.
    destruct (s_change_pct st) as [c|]; [|split; [done|by intros (?&?&[=]&_)]].
    destruct (s_avg st) as [a|];
      [|split; [done|by intros (?&?&_&[=]&_)]].
    destruct (fleb threshold (fabs c)) eqn:Hc.
    + split; [|done]. intros _. by exists c, a.
    + split; [done|]. intros (c' & a' & [= <-] & _ & Hc' & _). congruence.
Qed.

End EngineClaims.

(** At N = 1 the series of a metric has one slot, the day-index variance is
    zero, and the slope is absent, not 0. *)
Lemma slope_single_day_absent :
  ∃ s, compute_summary plain_date decimal_repr example_today 1 example_db
       = Ok s
       ∧ series s RestingHr = [Some (of_Z 67)]
       ∧ s_slope (stats s RestingHr) = None
       ∧ s_slope (stats s RestingHr) ≠ Some (of_Z 0).
Proof.
  destruct (compute_summary plain_date decimal_repr example_today 1
              example_db) as [s|e] eqn:E; vm_compute in E; [|discriminate E].
  injection E as <-. eexists. split; [reflexivity|]. by split_and!.
Qed.

(** The closed form in binary64: 3.5 on the series 60, 0, 67, as over the
    rationals; on two values of 2^1023, whose sum overflows, it is NaN,
    although the line through the two points has slope 0.  The slope of the
    code is the closed form as the machine evaluates it. *)
Example simple_trend_binary64_example :
  simple_trend_binary64 [60; 0; 67]%float = 3.5%float
  ∧ PrimFloat.is_nan (simple_trend_binary64 [0x1p1023; 0x1p1023]%float)
    = true.
Proof. split; reflexivity. Qed.

Lemma slope_of_summary_witness :
  ∃ s, compute_summary plain_date decimal_repr example_today 3 example_db
       = Ok s
       ∧ series s RestingHr = [Some (of_Z 60); None; Some (of_Z 67)]
       ∧ s_slope (stats s RestingHr)
         = Some (least_squares_slope [of_Z 60; of_Z 0; of_Z 67])
       ∧ feqb (least_squares_slope [of_Z 60; of_Z 0; of_Z 67]) (Fin 3.5)
         = true.
Proof.
  destruct (compute_summary plain_date decimal_repr example_today 3
              example_db) as [s|e] eqn:E.
  - exists s. split; [reflexivity|].
    destruct (slope_of_summary _ _ _ _ _ _ E RestingHr) as (_ & _ & H).
    vm_compute in E. injection E as <-.
    destruct H as [H _]; [cbn; lia|].
    split_and!; [reflexivity|exact H|vm_compute; reflexivity].
  - vm_compute in E. discriminate E.
Defined.

Lemma anomalies_of_summary_witness :
  ∃ s, compute_summary plain_date decimal_repr example_today 3 example_db
       = Ok s
       ∧ anomalies s
         = spec_anomalies decimal_repr (dates s) (series s BodyTemp)
             (series s Spo2)
       ∧ anomalies s
         = ["2024-01-03: high temp 38.2°C"; "2024-01-03: low SpO₂ 90.0%";
            "2024-01-05: low SpO₂ 93.5%"].
Proof.
  destruct (compute_summary plain_date decimal_repr example_today 3
              example_db) as [s|e] eqn:E.
  - exists s. split; [reflexivity|]. split.
    + apply (anomalies_of_summary _ _ _ _ _ _ E).
    + vm_compute in E. by injection E as <-.
  - vm_compute in E. discriminate E.
Defined.

Lemma narrative_of_insights_witness :
  ∃ out, get_insights plain_date decimal_repr None example_today (Some "3")
           example_db = Ok out
         ∧ deterministic out
           = spec_narrative decimal_repr (insights_summary out)
         ∧ deterministic out
           = "Resting HR increased by 11.7% (avg 63.5 bpm). "
             +:+ "HRV decreased by -12.0% (avg 47.0 ms). "
             +:+ "Anomalies: 2024-01-03: high temp 38.2°C; "
             +:+ "2024-01-03: low SpO₂ 90.0%; 2024-01-05: low SpO₂ 93.5%"
         ∧ ai out = None.
Proof.
  destruct (get_insights plain_date decimal_repr None example_today
              (Some "3") example_db) as [out|e] eqn:E.
  - exists out. split; [reflexivity|]. split.
    + apply (narrative_of_insights _ _ _ _ _ _ _ E).
    + vm_compute in E. by injection E as <-.
  - vm_compute in E. discriminate E.
Defined.

(** The sentences for a change of 5, -5 and 2 percent: the number keeps its
    sign after "decreased by". *)
Example change_sentence_examples :
  spec_rule decimal_repr "Resting HR" "bpm" (of_Z 3)
    {| s_first := Some (of_Z 60); s_last := Some (of_Z 63);
       s_avg := Some (Fin 61.5); s_change_pct := Some (of_Z 5);
       s_slope := None |}
  = ["Resting HR increased by 5.0% (avg 61.5 bpm)."]
  ∧ spec_rule decimal_repr "Resting HR" "bpm" (of_Z 3)
      {| s_first := Some (of_Z 60); s_last := Some (of_Z 57);
         s_avg := Some (Fin 58.5); s_change_pct := Some (of_Z (-5));
         s_slope := None |}
    = ["Resting HR decreased by -5.0% (avg 58.5 bpm)."]
  ∧ spec_rule decimal_repr "Resting HR" "bpm" (of_Z 3)
      {| s_first := Some (of_Z 50); s_last := Some (of_Z 51);
         s_avg := Some (Fin 50.5); s_change_pct := Some (of_Z 2);
         s_slope := None |}
    = [].
Proof. by vm_compute. Qed.

(** ** The order of text values *)

Lemma ascii_compare_eq (a b : ascii) : Ascii.compare a b = Eq → a = b.
Proof. apply Ascii.compare_eq_iff. Qed.

Lemma ascii_compare_lt_trans (a b c : ascii) :
  Ascii.compare a b = Lt → Ascii.compare b c = Lt → Ascii.compare a c = Lt.
Proof. unfold Ascii.compare. rewrite !N.compare_lt_iff. lia. Qed.

Lemma string_compare_lt_trans (a b c : string) :
  String.compare a b = Lt → String.compare b c = Lt →
  String.compare a c = Lt.
Proof.
  revert b c. induction a as [|x a IH]; intros [|y b] [|z c]; simpl; try done.
  destruct (Ascii.compare x y) eqn:Hxy; destruct (Ascii.compare y z) eqn:Hyz;
    try done.
  - apply ascii_compare_eq in Hxy as ->. rewrite Hyz. apply IH.
  - apply ascii_compare_eq in Hxy as ->. by rewrite Hyz.
  - apply ascii_compare_eq in Hyz as <-. by rewrite Hxy.
  - by rewrite (ascii_compare_lt_trans _ _ _ Hxy Hyz).
Qed.

Lemma string_leb_cases (a b : string) :
  String.leb a b = true → String.ltb a b = true ∨ a = b.
Proof.
  unfold String.leb, String.ltb.
  destruct (String.compare a b) eqn:Hab; try done.
  - intros _. right. by apply String.compare_eq_iff.
  - by left.
Qed.

Lemma string_ltb_leb (a b : string) :
  String.ltb a b = true → String.leb a b = true.
Proof. unfold String.leb, String.ltb. by destruct (String.compare a b). Qed.

Lemma string_compare_refl (a : string) : String.compare a a = Eq.
Proof.
  induction a as [|x a IH]; simpl; [done|].
  unfold Ascii.compare. by rewrite N.compare_refl.
Qed.

Lemma string_leb_refl (a : string) : String.leb a a = true.
Proof. unfold String.leb. by rewrite string_compare_refl. Qed.

Lemma string_ltb_irrefl (a : string) : String.ltb a a = false.
Proof. unfold String.ltb. by rewrite string_compare_refl. Qed.

Lemma string_not_ltb_leb (a b : string) :
  String.ltb a b = false → String.leb b a = true.
Proof.
  unfold String.leb, String.ltb. rewrite (String.compare_antisym a b).
  by destruct (String.compare b a).
Qed.

Lemma string_leb_trans (a b c : string) :
  String.leb a b = true → String.leb b c = true → String.leb a c = true.
Proof.
  intros Hab Hbc.
  apply string_leb_cases in Hab as [Hab| ->];
    apply string_leb_cases in Hbc as [Hbc| ->];
    [|by apply string_ltb_leb|by apply string_ltb_leb
     |apply string_leb_refl].
  apply string_ltb_leb. unfold String.ltb in *.
  destruct (String.compare a b) eqn:H1; try done.
  destruct (String.compare b c) eqn:H2; try done.
  by rewrite (string_compare_lt_trans _ _ _ H1 H2).
Qed.

(** ** [ORDER BY measured_at ASC] *)

Lemma insert_row_Permutation (r : measurement) (l : list measurement) :
  insert_row r l ≡ₚ r :: l.
Proof.
  induction l as [|x l IH]; simpl; [done|].
  destruct (String.ltb _ _); [|done].
  rewrite IH. apply perm_swap.
Qed.

Lemma order_by_Permutation (l : list measurement) :
  order_by_measured_at l ≡ₚ l.
Proof.
  induction l as [|x l IH]; simpl; [done|].
  by rewrite insert_row_Permutation, IH.
Qed.

Lemma insert_row_sorted (r : measurement) (l : list measurement) :
  StronglySorted at_most l → StronglySorted at_most (insert_row r l).
Proof.
  induction 1 as [|x l Hl IH Hx]; simpl.
  - repeat constructor.
  - destruct (String.ltb (measured_at x) (measured_at r)) eqn:Hxr.
    + constructor; [done|]. rewrite insert_row_Permutation.
      constructor; [|done]. by apply string_ltb_leb.
    + apply string_not_ltb_leb in Hxr.
      constructor; [by constructor|]. constructor; [done|].
      eapply Forall_impl; [exact Hx|]. intros y Hy.
      by eapply string_leb_trans.
Qed.

Lemma order_by_sorted (l : list measurement) :
  StronglySorted at_most (order_by_measured_at l).
Proof.
  induction l as [|x l IH]; simpl; [constructor|].
  by apply insert_row_sorted.
Qed.

(** The sort is stable: rows with the same text keep their table order. *)
Lemma insert_row_stable (k : string) (r : measurement)
    (l : list measurement) :
  filter (λ x, measured_at x = k) (insert_row r l)
  = filter (λ x, measured_at x = k) (r :: l).
Proof.
  induction l as [|x l IH]; simpl; [done|].
  destruct (String.ltb (measured_at x) (measured_at r)) eqn:Hxr; [|done].
  rewrite (filter_cons _ r), !(filter_cons _ x), IH, (filter_cons _ r).
  destruct (decide (measured_at r = k)) as [Hr|]; [|done].
  destruct (decide (measured_at x = k)) as [Hx|]; [|done].
  rewrite Hr, Hx, string_ltb_irrefl in Hxr. done.
Qed.

Lemma order_by_stable (k : string) (l : list measurement) :
  filter (λ x, measured_at x = k) (order_by_measured_at l)
  = filter (λ x, measured_at x = k) l.
Proof.
  induction l as [|x l IH]; simpl; [done|].
  by rewrite insert_row_stable, !filter_cons, IH.
Qed.

Lemma elem_of_order_by (r : measurement) (l : list measurement) :
  r ∈ order_by_measured_at l ↔ r ∈ l.
Proof. by rewrite order_by_Permutation. Qed.

(** ** The day → measurement mapping *)

Lemma build_by_day_snoc (items : list measurement) (it : measurement) :
  build_by_day (items ++ [it])
  = <[day_key it := it]> (build_by_day items).
Proof. unfold build_by_day. by rewrite fold_left_app. Qed.

(** Overwriting on collision keeps, for each day, the last item filed
    under it. *)
Lemma build_by_day_lookup (items : list measurement) (d : string) :
  build_by_day items !! d = last (filter (λ it, day_key it = d) items).
Proof.
  induction items as [|it items IH] using rev_ind; [done|].
  rewrite build_by_day_snoc, filter_app, filter_cons, filter_nil.
  destruct (decide (day_key it = d)) as [<-|Hne].
  - by rewrite lookup_insert_eq, last_snoc.
  - by rewrite lookup_insert_ne, app_nil_r.
Qed.

Lemma filter_snoc_inv {A} (P : A → Prop) `{∀ x, Decision (P x)}
    (l l1 : list A) (x : A) :
  filter P l = l1 ++ [x] →
  ∃ k1 k2, l = k1 ++ x :: k2 ∧ filter P k1 = l1 ∧ P x.
Proof.
  revert l1. induction l as [|y l IH]; intros l1; [by destruct l1|].
  rewrite filter_cons. destruct (decide (P y)) as [Hy|Hy].
  - destruct l1 as [|z l1]; simpl.
    + intros [= -> Hl]. exists [], l. by rewrite filter_nil.
    + intros [= -> Hl]. destruct (IH _ Hl) as (k1 & k2 & -> & <- & Hx).
      exists (z :: k1), k2. by rewrite filter_cons_True.
  - intros Hl. destruct (IH _ Hl) as (k1 & k2 & -> & <- & Hx).
    exists (y :: k1), k2. by rewrite filter_cons_False.
Qed.

Lemma StronglySorted_filter {A} (R : A → A → Prop) (P : A → Prop)
    `{∀ x, Decision (P x)} (l : list A) :
  StronglySorted R l → StronglySorted R (filter P l).
Proof.
  induction 1 as [|x l Hl IH Hx]; [constructor|].
  rewrite filter_cons. destruct (decide (P x)); [|done].
  constructor; [done|]. apply Forall_forall.
  intros y [_ Hy]%list_elem_of_filter.
  by apply (proj1 (Forall_forall _ _) Hx).
Qed.

Lemma StronglySorted_before {A} (R : A → A → Prop) (l1 l2 : list A)
    (x y : A) :
  StronglySorted R (l1 ++ x :: l2) → y ∈ l1 → R y x.
Proof.
  induction l1 as [|z l1 IH]; simpl; [by intros _ ?%elem_of_nil|].
  intros [Hs Hz]%StronglySorted_inv [->|Hy]%elem_of_cons; [|by apply IH].
  rewrite Forall_app, Forall_cons in Hz. by destruct Hz as (_ & ? & _).
Qed.

(** In the result of the query, a row found before another one is before
    it in the order of the text column, and was inserted first when the two
    texts are the same. *)
Lemma order_by_before (db l1 l2 : list measurement) (r w : measurement) :
  rowids_increase db →
  order_by_measured_at db = l1 ++ w :: l2 → r ∈ l1 → before r w.
Proof.
  intros Hdb Hl Hr.
  pose proof (order_by_sorted db) as Hs. rewrite Hl in Hs.
  pose proof (StronglySorted_before _ _ _ _ _ Hs Hr) as Hrw.
  apply string_leb_cases in Hrw as [Hlt|Heq]; [by left|right].
  split; [done|].
  pose proof (order_by_stable (measured_at w) db) as Hst.
  rewrite Hl, filter_app, filter_cons_True in Hst by done.
  apply (StronglySorted_filter _ (λ x, measured_at x = measured_at w))
    in Hdb.
  rewrite <- Hst in Hdb.
  apply (StronglySorted_before _ _ _ _ r) in Hdb; [done|].
  by apply list_elem_of_filter.
Qed.

Section DailySlot.

Variable date : string → option string.
Variable float_repr : pyfloat → string.

(** C4: in a computed summary the slot of a calendar day holds the last
    record of that day in ascending measured_at order: among the fetched
    rows filed under the day there is one whose stored resting_hr, hrv,
    respiratory_rate, body_temp and spo2 are the values in the day's slot
    of the five series, and it comes after every other one in the order of
    measured_at, and after those with the same measured_at in insertion
    order.  A day without a row has empty slots. *)
Theorem daily_slot_is_last_record (today ndays : Z) (db : list measurement)
    (s : summary) :
  compute_summary date float_repr today ndays db = Ok s →
  rowids_increase db →
  ∀ (i : nat) (d : string),
    dates s !! i = Some d →
    let of_day r :=
      r ∈ db
      ∧ date_ge date (isoformat (today - (ndays - 1))) r = true
      ∧ day_key r = d in
    (∃ w, of_day w
          ∧ series s RestingHr !! i = Some (of_Z <$> resting_hr w)
          ∧ series s Hrv !! i = Some (hrv w)
          ∧ series s RespiratoryRate !! i = Some (respiratory_rate w)
          ∧ series s BodyTemp !! i = Some (body_temp w)
          ∧ series s Spo2 !! i = Some (spo2 w)
          ∧ (∀ r, of_day r → r = w ∨ before r w))
    ∨ ((∀ r, ¬ of_day r) ∧ ∀ key, series s key !! i = Some None).
Proof.
  intros (_ & Hd & Hser & _)%compute_summary_inv Hdb i d Hi. cbv zeta.
  rewrite Hd in Hi.
  assert (∀ key, series s key !! i
                 = Some (slot (build_by_day (fetched date today ndays db))
                              key d)) as Hslot.
  { intros key. by rewrite Hser, list_lookup_fmap, Hi. }
  unfold slot in Hslot. rewrite build_by_day_lookup in Hslot.
  unfold fetched in Hslot.
  set (cutoff := isoformat (today - (ndays - 1))) in *.
  set (rows := filter (λ r, date_ge date cutoff r) db) in *.
  assert (∀ r, r ∈ rows ↔ r ∈ db ∧ date_ge date cutoff r = true) as Hrows.
  { intros r. unfold rows. rewrite list_elem_of_filter, Is_true_true.
    by split; intros [? ?]. }
  destruct (last (filter (λ it, day_key it = d) (order_by_measured_at rows)))
    as [w|] eqn:Hlast.
  - left. exists w. apply last_Some in Hlast as (l' & Hl').
    destruct (filter_snoc_inv _ _ _ _ Hl') as (k1 & k2 & Hk & Hk1 & Hw).
    assert (w ∈ rows) as Hwr.
    { apply elem_of_order_by. rewrite Hk. apply elem_of_app. right. left. }
    split_and!;
      [by apply Hrows|by apply Hrows|done|exact (Hslot RestingHr)
      |exact (Hslot Hrv)|exact (Hslot RespiratoryRate)
      |exact (Hslot BodyTemp)|exact (Hslot Spo2)|].
    intros r (Hr1 & Hr2 & Hr3).
    assert (r ∈ filter (λ it, day_key it = d) (order_by_measured_at rows))
      as Hr.
    { apply list_elem_of_filter. split; [done|].
      apply elem_of_order_by, Hrows. done. }
    rewrite Hl' in Hr. apply elem_of_app in Hr as [Hr|Hr].
    + right. rewrite <- Hk1 in Hr. apply list_elem_of_filter in Hr as [_ Hr].
      apply (order_by_before rows k1 k2); [|done|done].
      by apply StronglySorted_filter.
    + left. by apply list_elem_of_singleton in Hr.
  - right. apply last_None in Hlast. split; [|done].
    intros r (Hr1 & Hr2 & Hr3).
    eapply (filter_nil_not_elem_of _ _ r); [exact Hlast|done|].
    apply elem_of_order_by, Hrows. done.
Qed.

End DailySlot.

Lemma example_db_rowids : rowids_increase example_db.
Proof. repeat constructor; simpl; lia. Qed.

Lemma daily_slot_is_last_record_witness :
  ∃ s, compute_summary plain_date decimal_repr example_today 3 example_db
       = Ok s
       ∧ dates s !! 2%nat = Some "2024-01-05"
       ∧ series s RestingHr !! 2%nat = Some (Some (of_Z 67))
       ∧ series s Hrv !! 2%nat = Some (Some (Fin 44))
       ∧ series s RespiratoryRate !! 2%nat = Some None
       ∧ series s BodyTemp !! 2%nat = Some (Some (Fin 36.6))
       ∧ series s Spo2 !! 2%nat = Some (Some (Fin 93.5)).
Proof.
  destruct (compute_summary plain_date decimal_repr example_today 3
              example_db) as [s|e] eqn:E.
  - exists s. split; [reflexivity|].
    assert (dates s !! 2%nat = Some "2024-01-05") as Hd.
    { apply compute_summary_inv in E as (_ & -> & _). reflexivity. }
    split; [exact Hd|].
    set (row4 := example_row 4 "2024-01-05T09:00:00" 67
                   (Some (Fin 44)) (Some (Fin 36.6)) (Some (Fin 93.5))).
    assert (row4 ∈ example_db) as Hin.
    { unfold example_db. do 3 right. left. }
    destruct (daily_slot_is_last_record _ _ _ _ _ _ E example_db_rowids
                2%nat _ Hd)
      as [(w & (Hw & _) & H1 & H2 & H3 & H4 & H5 & Hlast)|[Hnone _]].
    + assert (w = row4) as ->.
      { destruct (Hlast row4) as [Heq|Hbefore].
        - split_and!; [exact Hin|reflexivity|reflexivity].
        - symmetry. exact Heq.
        - exfalso. clear -Hw Hbefore. unfold example_db in Hw.
          rewrite !elem_of_cons in Hw.
          destruct Hw as [->|[->|[->|[->|Hw]]]];
            [destruct Hbefore as [Hlt|[_ Hid]];
             [vm_compute in Hlt; discriminate Hlt
             |vm_compute in Hid; discriminate Hid]..|].
          apply elem_of_nil in Hw. destruct Hw. }
      split_and!; [exact H1|exact H2|exact H3|exact H4|exact H5].
    + exfalso. apply (Hnone row4).
      split_and!; [exact Hin|reflexivity|reflexivity].
  - vm_compute in E. discriminate E.
Defined.

(** ** [list_measurements] *)

Section ListClaims.

Variable date : string → option string.

Lemma list_measurements_rows (since until : option string)
    (db : list measurement) :
  list_measurements date since until db
  = Ok (order_by_measured_at
          (filter (λ r, where_clause date since until r) db)).
Proof.
  unfold list_measurements, where_clause. f_equal.
  destruct (truthy since && truthy until); [done|].
  destruct (truthy since); [done|].
  f_equal. induction db as [|r db IH]; [done|].
  by rewrite filter_cons_True, <- IH.
Qed.

(** With an until bound alone the query has no WHERE clause. *)
Lemma list_measurements_until_only (until : option string)
    (db : list measurement) :
  list_measurements date None until db = Ok (order_by_measured_at db).
Proof. done. Qed.

End ListClaims.

(** C7 (the code at the failing input): with only until=2024-01-04 the
    handler returns the whole table, rows dated 2024-01-05 included. *)
Theorem list_until_only_is_unfiltered :
  list_measurements plain_date None (Some "2024-01-04") example_db
  = Ok (order_by_measured_at example_db)
  ∧ length (order_by_measured_at example_db) = 4%nat
  ∧ ∃ r, r ∈ order_by_measured_at example_db
         ∧ plain_date (measured_at r) = Some "2024-01-05"
         ∧ String.leb "2024-01-05" "2024-01-04" = false.
Proof.
  split_and!; [done|done|].
  exists (example_row 2 "2024-01-05T09:00:00" 66 (Some (Fin 40)) None None).
  split_and!; [|done|done].
  apply elem_of_order_by. unfold example_db. right. left.
Qed.

(** C8 (the code at the failing input): a filter that is no calendar date
    is not rejected.  The request with since=yesterday is answered with
    status 200 and no row; with since=1 it is answered with status 200 and
    the whole table; with until=tomorrow next to a well-formed since it is
    answered with status 200 and every row from since on.  Neither
    argument is checked before it is bound to the query. *)
Theorem list_malformed_since_accepted :
  well_formed_date "yesterday" = false
  ∧ list_measurements plain_date (Some "yesterday") None example_db = Ok []
  ∧ status 200
      (list_measurements plain_date (Some "yesterday") None example_db)
    = 200%nat
  ∧ well_formed_date "1" = false
  ∧ list_measurements plain_date (Some "1") None example_db
    = Ok (order_by_measured_at example_db)
  ∧ well_formed_date "tomorrow" = false
  ∧ list_measurements plain_date (Some "2024-01-05") (Some "tomorrow")
      example_db
    = list_measurements plain_date (Some "2024-01-05") None example_db
  ∧ status 200
      (list_measurements plain_date (Some "2024-01-05") (Some "tomorrow")
         example_db)
    = 200%nat
  ∧ well_formed_date "2024-01-05" = true.
Proof. split_and!; vm_compute; reflexivity. Qed.

(** ** [create_measurement] *)

Lemma n_null (data : gmap string json) (key : string) :
  get data key = JStr "null" → n data key = Ok None.
Proof. intros Hk. unfold n. by rewrite Hk. Qed.

Lemma n_string (data : gmap string json) (key s : string) (x : pyfloat) :
  get data key = JStr s → float_of_string s = Ok x →
  n data key = Ok (Some x).
Proof.
  intros Hk Hs. unfold n. rewrite Hk. cbn [is_none is_str orb py_float].
  destruct (String.eqb_spec s "") as [->|_]; [done|].
  destruct (String.eqb_spec s "null") as [->|_]; [done|].
  by rewrite Hs.
Qed.

Lemma next_rowid_above (db : list measurement) :
  Forall (λ r, rowid r < next_rowid db) db.
Proof.
  unfold next_rowid. induction db as [|x db IH]; [constructor|].
  cbn [foldr]. constructor; [lia|].
  eapply Forall_impl; [exact IH|]. intros r Hr. simpl in Hr. lia.
Qed.

(** An insert appends one row, whose rowid is above the ones in the table. *)
Lemma create_measurement_appends (now : clock) (req : payload)
    (db db' : list measurement) (row : measurement) :
  create_measurement now req db = Ok (db', row) →
  db' = db ++ [row] ∧ rowid row = next_rowid db
  ∧ (rowids_increase db → rowids_increase db').
Proof.
  unfold create_measurement.
  intros (? & _ & (? & _ & (? & _ & (? & _ & (? & _ & [= <- <-])%bind_Ok)
    %bind_Ok)%bind_Ok)%bind_Ok)%bind_Ok.
  split_and!; [done|done|]. intros Hdb. apply StronglySorted_app_2.
  - intros r1 r2 Hr1 ->%list_elem_of_singleton. cbn [rowid].
    by apply (proj1 (Forall_forall _ _) (next_rowid_above db)).
  - done.
  - repeat constructor.
Qed.

(** C3 (the code at the failing input): an unparseable hrv makes the insert
    fail with the [ValueError] of [float()], status 500, while the same text
    for resting_hr is stored as absent. *)
Theorem create_measurement_unparseable_real (now : clock)
    (db : list measurement) :
  create_measurement now (example_payload {[ "hrv" := JStr "abc" ]}) db
  = Raise ValueError
  ∧ status 201
      (create_measurement now (example_payload {[ "hrv" := JStr "abc" ]}) db)
    = 500%nat
  ∧ ∃ row,
      create_measurement now
        (example_payload {[ "resting_hr" := JStr "abc" ]}) db
      = Ok (db ++ [row], row)
      ∧ resting_hr row = None.
Proof.
  split_and!; [done|done|]. eexists. split; [reflexivity|done].
Qed.

(** C10: resting_hr goes through [int()] and the other numeric fields
    through [float()]: a text that [float()] parses and [int()] does not,
    such as "60.5", given for both resting_hr and hrv, is persisted with
    resting_hr absent and hrv holding the parsed number; the text "null"
    given for a real-valued field is persisted as absent. *)
Theorem integer_and_real_coercion (now : clock) (req : payload)
    (db : list measurement) (s : string) (x : pyfloat)
    (rr bt sp : option pyfloat) :
  get (p_data req) "resting_hr" = JStr s →
  get (p_data req) "hrv" = JStr s →
  int_of_string s = Raise ValueError →
  float_of_string s = Ok x →
  x ≠ NaN →
  n (p_data req) "respiratory_rate" = Ok rr →
  n (p_data req) "body_temp" = Ok bt →
  n (p_data req) "spo2" = Ok sp →
  (∃ row,
     create_measurement now req db = Ok (db ++ [row], row)
     ∧ resting_hr row = None
     ∧ hrv row = Some x
     ∧ (get (p_data req) "respiratory_rate" = JStr "null" →
        respiratory_rate row = None)
     ∧ (get (p_data req) "body_temp" = JStr "null" → body_temp row = None)
     ∧ (get (p_data req) "spo2" = JStr "null" → spo2 row = None))
  ∧ int_of_string "60.5" = Raise ValueError
  ∧ (∃ q, float_of_string "60.5" = Ok (Fin q) ∧ (q == 60.5)%Q)
  ∧ (∀ data key, get data key = JStr "null" → n data key = Ok None).
Proof.
  intros Hrhr Hhrv Hint Hfloat Hnan Hrr Hbt Hsp.
  split_and!; [|done|by eexists|apply n_null].
  unfold create_measurement.
  rewrite (n_string _ _ _ _ Hhrv Hfloat), Hrr, Hbt, Hsp, Hrhr.
  cbn [mbind result_bind is_none is_str orb py_int].
  rewrite Hint. destruct (String.eqb s ""); cbn [bind_int mbind result_bind];
    (eexists; split; [reflexivity|]; cbn;
     split_and!; [done|by destruct x|..];
     intros Hnull; rewrite (n_null _ _ Hnull) in *;
     by simplify_eq).
Qed.

Lemma integer_and_real_coercion_witness :
  ∃ row,
    create_measurement example_clock
      (example_payload {[ "resting_hr" := JStr "60.5";
                          "hrv" := JStr "60.5";
                          "spo2" := JStr "null" ]}) example_db
    = Ok (example_db ++ [row], row)
    ∧ resting_hr row = None
    ∧ hrv row = Some (Fin (605 # 10))
    ∧ spo2 row = None
    ∧ rowid row = 5.
Proof.
  destruct (integer_and_real_coercion example_clock
    (example_payload {[ "resting_hr" := JStr "60.5"; "hrv" := JStr "60.5";
                        "spo2" := JStr "null" ]})
    example_db "60.5" (Fin (605 # 10)) None None None)
    as ((row & Hrow & H1 & H2 & _ & _ & H3) & _); try done.
  exists row. split_and!; [done|done|done|by apply H3|].
  by apply create_measurement_appends in Hrow as (_ & -> & _).
Defined.

(** * Further properties of the code *)

(** ** The utility functions *)

Lemma Qlt_bool_iff (a b : Q) : Qlt_bool a b = true ↔ (a < b)%Q.
Proof.
  unfold Qlt_bool. rewrite negb_true_iff, <- not_true_iff_false.
  rewrite Qle_bool_iff. split; [apply Qnot_le_lt|apply Qlt_not_le].
Qed.

Lemma Qneg_Qabs (q : Q) : Qneg (Qabs q) = false.
Proof.
  unfold Qneg. apply Z.ltb_ge. destruct q as [num den]. simpl.
  apply Z.abs_nonneg.
Qed.

(** X2: the sign of [pct_change] never contradicts the two values: when
    the change is above zero the last value is above the first, when it is
    below zero the last value is below the first, whatever the sign of the
    first value, and also for infinite values. *)
Theorem pct_change_direction (old new p : pyfloat) :
  pct_change (Some old) (Some new) = Some p →
  (fltb (of_Z 0) p = true → fltb old new = true)
  ∧ (fltb p (of_Z 0) = true → fltb new old = true).
Proof.
  rewrite pct_change_Some. unfold spec_change_pct.
  destruct (feqb old (of_Z 0)) eqn:Hold; [done|]. intros [= <-].
  destruct old as [a|s|], new as [b|t|]; cbn [fsub fneg fadd fabs fdiv];
    try (by cbn).
  - cbn [fmul of_Z fltb]. rewrite !Qlt_bool_iff.
    assert (¬ (a == 0)%Q) as Ha0.
    { intros Heq. apply (proj2 (Qeq_bool_iff a 0)) in Heq.
      change (Qeq_bool a 0 = false) in Hold. congruence. }
    assert (0 < Qabs a)%Q as Ha.
    { pose proof (Qabs_nonneg a) as Hn.
      apply Qle_lteq in Hn as [Hn|Hn]; [done|]. destruct Ha0.
      destruct a as [num den]. unfold Qeq in *. simpl in *. lia. }
    set (d := (b + - a)%Q).
    assert ((d / Qabs a * inject_Z 100 == d * (100 / Qabs a))%Q) as ->.
    { change (inject_Z 100) with 100%Q. field. intros Hz. rewrite Hz in Ha.
      by apply Qlt_irrefl in Ha. }
    assert (0 < 100 / Qabs a)%Q as Hk.
    { apply Qlt_shift_div_l; [done|]. by rewrite Qmult_0_l. }
    generalize dependent (100 / Qabs a)%Q. intros k Hk.
    change (inject_Z 0) with 0%Q. unfold d. split; intros H; nra.
  - rewrite Qneg_Qabs. by destruct t.
  - by destruct s, t.
Qed.

Lemma pct_change_direction_witness :
  ∃ p, pct_change (Some (of_Z 67)) (Some (of_Z 60)) = Some p
       ∧ fltb p (of_Z 0) = true
       ∧ fltb (of_Z 60) (of_Z 67) = true.
Proof.
  destruct (pct_change (Some (of_Z 67)) (Some (of_Z 60))) as [p|] eqn:E.
  - destruct (pct_change_direction _ _ _ E) as [_ H].
    exists p. split; [reflexivity|].
    assert (fltb p (of_Z 0) = true) as Hp.
    { vm_compute in E. injection E as <-. reflexivity. }
    split; [exact Hp|exact (H Hp)].
  - vm_compute in E. discriminate E.
Defined.

(** ** The summary engine: outcomes and edge cases *)

Section EngineExtras.

Variable date : string → option string.
Variable float_repr : pyfloat → string.

Lemma window_lookup (today ndays : Z) (i : nat) :
  Z.of_nat i < ndays →
  window today ndays !! i
  = Some (isoformat (today - (ndays - 1 - Z.of_nat i))).
Proof.
  intros Hi. unfold window.
  rewrite list_lookup_fmap, lookup_seqZ_lt by done. simpl.
  by rewrite Z.add_0_l.
Qed.

Lemma compute_summary_fits (today ndays : Z) (db : list measurement) :
  1 ≤ today ≤ max_ordinal → window_in_range today ndays →
  ∃ s, compute_summary date float_repr today ndays db = Ok s.
Proof.
  unfold window_in_range, max_ordinal. intros Htoday [Hd Hc].
  unfold compute_summary.
  assert (∀ k, Z.abs k ≤ Z.abs (ndays - 1) →
               today - (ndays - 1) ≤ today - k ≤ today ∨ k = ndays - 1 →
               timedelta k = Ok k
               ∧ date_sub today k = Ok (today - k)) as Hk.
  { intros k Hk1 Hk2. unfold timedelta, date_sub, max_ordinal. split.
    - by replace (Z.abs k <=? 999999999) with true
        by (symmetry; apply Z.leb_le; lia).
    - replace (1 <=? today - k) with true
        by (symmetry; apply Z.leb_le; lia).
      by replace (today - k <=? 3652059) with true
        by (symmetry; apply Z.leb_le; lia). }
  destruct (Hk (ndays - 1)) as [-> Hcut]; [lia|by right|].
  cbn [mbind result_bind]. rewrite Hcut. cbn [mbind result_bind].
  rewrite (traverse_Ok_map _ (λ i, isoformat (today - (ndays - 1 - i)))).
  2:{ intros i [? ?]%elem_of_seqZ.
      destruct (Hk (ndays - 1 - i)) as [-> Hi]; [lia|left; lia|].
      cbn [mbind result_bind]. by rewrite Hi. }
  cbn [mbind result_bind].
  repeat match goal with
  | |- context [key_stats ?v] =>
      destruct (key_stats_Ok v) as (? & _ & ->); cbn [mbind result_bind]
  end.
  rewrite (anomaly_loop_spec _ _ _ _ 0)
    by (rewrite !length_map; simpl; lia).
  cbn [mbind result_bind]. eauto.
Qed.

Lemma compute_summary_overflow (today ndays : Z) (db : list measurement) :
  ¬ window_in_range today ndays →
  compute_summary date float_repr today ndays db = Raise OverflowError.
Proof.
  intros Hout. unfold compute_summary, timedelta.
  destruct (Z.abs (ndays - 1) <=? 999999999) eqn:Hd; [|done].
  cbn [mbind result_bind]. unfold date_sub.
  destruct ((1 <=? today - (ndays - 1))
            && (today - (ndays - 1) <=? max_ordinal)) eqn:Hc; [|done].
  destruct Hout. apply Z.leb_le in Hd.
  apply andb_prop in Hc as [?%Z.leb_le ?%Z.leb_le]. done.
Qed.

(** X4: [compute_summary] has one way to fail: an [OverflowError] when the
    window does not fit [timedelta] and the dates of [datetime]; computing
    the statistics and the anomalies never raises, whatever the stored
    values.  When the window fits, the summary is returned, it echoes the
    day count, and its dates are the N consecutive days that end today,
    oldest first. *)
Theorem compute_summary_outcome (today ndays : Z) (db : list measurement) :
  1 ≤ today ≤ max_ordinal →
  (window_in_range today ndays →
   ∃ s, compute_summary date float_repr today ndays db = Ok s
        ∧ days s = ndays
        ∧ length (dates s) = Z.to_nat ndays
        ∧ (∀ key, length (series s key) = Z.to_nat ndays)
        ∧ (∀ i : nat, Z.of_nat i < ndays →
             dates s !! i
             = Some (isoformat (today - (ndays - 1 - Z.of_nat i))))
        ∧ (1 ≤ ndays → last (dates s) = Some (isoformat today)))
  ∧ (¬ window_in_range today ndays →
     compute_summary date float_repr today ndays db = Raise OverflowError).
Proof.
  intros Htoday. split; [|apply compute_summary_overflow].
  intros Hin. destruct (compute_summary_fits _ _ db Htoday Hin) as [s Hs].
  exists s. split; [done|].
  apply compute_summary_inv in Hs as (Hdays & Hdates & Hser & _ & _).
  assert (length (window today ndays) = Z.to_nat ndays) as Hlen.
  { unfold window. by rewrite length_fmap, length_seqZ. }
  split_and!; [done|by rewrite Hdates| | |].
  - intros key. by rewrite Hser, length_map.
  - intros i Hi. rewrite Hdates. by apply window_lookup.
  - intros Hn. rewrite Hdates, last_lookup, Hlen.
    rewrite window_lookup by lia. do 2 f_equal. lia.
Qed.

End EngineExtras.

Lemma compute_summary_outcome_witness :
  (∃ s, compute_summary plain_date decimal_repr example_today 7 example_db
        = Ok s
        ∧ last (dates s) = Some "2024-01-05")
  ∧ compute_summary plain_date decimal_repr example_today 800000 example_db
    = Raise OverflowError.
Proof.
  destruct (compute_summary_outcome plain_date decimal_repr example_today 7
              example_db) as [Hin _]; [by vm_compute|].
  destruct (compute_summary_outcome plain_date decimal_repr example_today
              800000 example_db) as [_ Hout]; [by vm_compute|].
  split.
  - destruct Hin as (s & Hs & _ & _ & _ & _ & Hlast).
    { unfold window_in_range, example_today, max_ordinal. lia. }
    exists s. split; [done|]. by rewrite Hlast.
  - apply Hout. unfold window_in_range, example_today, max_ordinal. lia.
Defined.

Section EngineEdgeCases.

Variable date : string → option string.
Variable float_repr : pyfloat → string.

Lemma spec_anomalies_length (ds : list string)
    (ts ss : list (option pyfloat)) :
  (length (spec_anomalies float_repr ds ts ss) ≤ 2 * length ds)%nat.
Proof.
  revert ts ss. induction ds as [|d ds IH]; intros [|t ts] [|s ss];
    cbn [spec_anomalies length]; try lia.
  rewrite length_app. specialize (IH ts ss).
  assert (length (day_flags float_repr d t s) ≤ 2)%nat; [|lia].
  unfold day_flags. rewrite length_app.
  destruct t as [t|]; [destruct (fleb (Fin 38) t)|];
    (destruct s as [s|]; [destruct (fltb s (of_Z 94))|]); simpl; lia.
Qed.

Lemma day_flags_nil (d : string) (t s : option pyfloat) :
  day_flags float_repr d t s = [] ↔
  (∀ x, t = Some x → fleb (Fin 38) x = false)
  ∧ (∀ x, s = Some x → fltb x (of_Z 94) = false).
Proof.
  unfold day_flags. rewrite app_nil.
  assert (match t with
          | Some t => if fleb (Fin 38) t then [high_temp float_repr d t]
                      else []
          | None => []
          end = [] ↔ ∀ x, t = Some x → fleb (Fin 38) x = false) as ->.
  { destruct t as [t|]; [|by split; [intros _ x [=]|]].
    destruct (fleb (Fin 38) t) eqn:E.
    - split; [done|]. intros H. specialize (H t eq_refl). congruence.
    - split; [|done]. by intros _ x [= <-]. }
  assert (match s with
          | Some s => if fltb s (of_Z 94) then [low_spo2 float_repr d s]
                      else []
          | None => []
          end = [] ↔ ∀ x, s = Some x → fltb x (of_Z 94) = false) as ->.
  { destruct s as [s|]; [|by split; [intros _ x [=]|]].
    destruct (fltb s (of_Z 94)) eqn:E.
    - split; [done|]. intros H. specialize (H s eq_refl). congruence.
    - split; [|done]. by intros _ x [= <-]. }
  done.
Qed.

Lemma spec_anomalies_nil (ds : list string) (ts ss : list (option pyfloat)) :
  length ts = length ds → length ss = length ds →
  spec_anomalies float_repr ds ts ss = [] ↔
  (∀ t, Some t ∈ ts → fleb (Fin 38) t = false)
  ∧ (∀ s, Some s ∈ ss → fltb s (of_Z 94) = false).
Proof.
  revert ts ss. induction ds as [|d ds IH]; intros [|t ts] [|s ss];
    cbn [spec_anomalies length]; try done.
  - intros _ _. split; [|done]. intros _.
    split; by intros ? ?%elem_of_nil.
  - intros [= Ht] [= Hs]. rewrite app_nil, (IH _ _ Ht Hs), day_flags_nil.
    split.
    + intros [[H1 H2] [H3 H4]].
      split; intros x [Hx|Hx]%elem_of_cons; eauto.
    + intros [H1 H2]. split_and!.
      * intros x Hx. subst. apply H1. left.
      * intros x Hx. subst. apply H2. left.
      * intros x Hx. apply H1. by right.
      * intros x Hx. apply H2. by right.
Qed.

(** X5: the anomalies of a computed summary number at most two per day,
    and there is none exactly when no day of the window has a body
    temperature of 38.0 or more or an SpO₂ below 94. *)
Theorem anomalies_count (today ndays : Z) (db : list measurement)
    (s : summary) :
  compute_summary date float_repr today ndays db = Ok s →
  (length (anomalies s) ≤ 2 * length (dates s))%nat
  ∧ (anomalies s = [] ↔
     (∀ t, Some t ∈ series s BodyTemp → fleb (Fin 38) t = false)
     ∧ (∀ sp, Some sp ∈ series s Spo2 → fltb sp (of_Z 94) = false)).
Proof.
  intros (_ & Hd & Hser & _ & Han)%compute_summary_inv.
  rewrite Han. split; [apply spec_anomalies_length|].
  apply spec_anomalies_nil; by rewrite Hser, Hd, length_map.
Qed.

Lemma key_stats_no_data (n : nat) :
  key_stats (replicate n None) = Ok no_stat.
Proof.
  assert (present (replicate n (@None pyfloat)) = []) as Hp.
  { by apply present_nil_iff, Forall_replicate. }
  destruct (key_stats_Ok (replicate n None)) as (slope & Hslope & ->).
  rewrite simple_trend_few in Hslope by (rewrite Hp; simpl; lia).
  injection Hslope as <-.
  rewrite present_reverse, Hp. done.
Qed.

Lemma spec_anomalies_no_data (ds : list string) (n m : nat) :
  spec_anomalies float_repr ds (replicate n None) (replicate m None) = [].
Proof.
  revert n m. induction ds as [|d ds IH]; intros [|n] [|m]; try done.
  cbn [replicate spec_anomalies]. by rewrite IH.
Qed.

Lemma map_slot_None (by_day : gmap string measurement) (key : metric)
    (l : list string) :
  (∀ d, d ∈ l → by_day !! d = None) →
  map (slot by_day key) l = replicate (length l) None.
Proof.
  induction l as [|d l IH]; intros Hl; [done|].
  cbn [map length replicate]. f_equal.
  - unfold slot. rewrite Hl; [done|left].
  - apply IH. intros d' Hd'. apply Hl. by right.
Qed.

(** X6: when no fetched row is filed under a day of the window (an empty
    table, or rows of other days only), the summary has an empty slot for
    every day of every metric, every statistic absent, the slope included,
    and no anomaly, and the narrative is the fixed sentence. *)
Theorem summary_without_data (today ndays : Z) (db : list measurement)
    (s : summary) :
  compute_summary date float_repr today ndays db = Ok s →
  (∀ r, r ∈ db →
        date_ge date (isoformat (today - (ndays - 1))) r = true →
        day_key r ∉ dates s) →
  (∀ key, series s key = replicate (Z.to_nat ndays) None)
  ∧ (∀ key, stats s key = no_stat)
  ∧ anomalies s = []
  ∧ deterministic_insight float_repr s
    = Ok "No notable changes detected in the last period.".
Proof.
  intros Hs Hnone.
  pose proof (compute_summary_inv _ _ _ _ _ _ Hs)
    as (_ & Hd & Hser & Hst & Han).
  assert (∀ key, series s key = replicate (Z.to_nat ndays) None) as Hempty.
  { intros key. rewrite Hser.
    replace (Z.to_nat ndays) with (length (window today ndays))
      by (unfold window; by rewrite length_fmap, length_seqZ).
    rewrite Hd in Hnone. apply map_slot_None. intros d Hin.
    rewrite build_by_day_lookup.
    destruct (last _) as [w|] eqn:Hlast; [|done].
    apply last_Some_elem_of, list_elem_of_filter in Hlast as [Hk Hw].
    unfold fetched in Hw.
    apply elem_of_order_by, list_elem_of_filter in Hw as [Hge Hw].
    apply Is_true_true in Hge.
    destruct (Hnone w Hw Hge). by rewrite Hk. }
  assert (∀ key, stats s key = no_stat) as Hno.
  { intros key. specialize (Hst key).
    rewrite Hempty, key_stats_no_data in Hst. by injection Hst. }
  assert (anomalies s = []) as Hnil.
  { rewrite Han, !Hempty. apply spec_anomalies_no_data. }
  split_and!; [done..|].
  rewrite (deterministic_insight_spec _ _ _ _ _ _ Hs).
  unfold spec_narrative. by rewrite !Hno, Hnil.
Qed.

End EngineEdgeCases.

Lemma anomalies_count_witness :
  ∃ s, compute_summary plain_date decimal_repr example_today 3 example_db
       = Ok s
       ∧ (length (anomalies s) ≤ 6)%nat.
Proof.
  destruct (compute_summary plain_date decimal_repr example_today 3
              example_db) as [s|e] eqn:E.
  - exists s. split; [reflexivity|].
    destruct (anomalies_count _ _ _ _ _ _ E) as [Hlen _].
    vm_compute in E. injection E as <-. exact Hlen.
  - vm_compute in E. discriminate E.
Defined.

Lemma summary_without_data_witness :
  ∃ s, compute_summary plain_date decimal_repr example_today 7 [] = Ok s
       ∧ series s Hrv = replicate 7 None
       ∧ stats s Hrv = no_stat
       ∧ anomalies s = [].
Proof.
  destruct (compute_summary plain_date decimal_repr example_today 7 [])
    as [s|e] eqn:E.
  - exists s. split; [reflexivity|].
    destruct (summary_without_data _ _ _ _ _ _ E) as (H1 & H2 & H3 & _).
    + intros r Hr. apply elem_of_nil in Hr. destruct Hr.
    + split_and!; [apply H1|apply H2|exact H3].
  - vm_compute in E. discriminate E.
Defined.

(** ** [get_insights] *)

Section InsightsExtras.

Variable date : string → option string.
Variable float_repr : pyfloat → string.
Variable openai : option (summary → result string).

Lemma int_of_string_error (a : string) (e : exn) :
  int_of_string a = Raise e → e = ValueError.
Proof.
  unfold int_of_string. destruct (sign _) as [neg l].
  destruct (digitpart l) as [[ds [|c r]]|]; [|by intros [=]..].
  by destruct (int_max_str_digits <? _); intros [=].
Qed.

(** X8: the outcomes of [get_insights] for a clock within the range of
    [datetime]: a days argument that is not the text of an integer fails the
    request with [ValueError]; an integer whose window does not fit fails it
    with [OverflowError]; in every other case the request succeeds, with 7
    days when the argument is missing; building the narrative never
    raises. *)
Theorem get_insights_outcome (today : Z) (arg : option string)
    (db : list measurement) :
  1 ≤ today ≤ max_ordinal →
  match days_of_arg arg with
  | Raise e =>
      e = ValueError
      ∧ get_insights date float_repr openai today arg db = Raise ValueError
  | Ok ndays =>
      (arg = None → ndays = 7)
      ∧ (window_in_range today ndays →
         ∃ out, get_insights date float_repr openai today arg db = Ok out
                ∧ days (insights_summary out) = ndays
                ∧ length (dates (insights_summary out)) = Z.to_nat ndays)
      ∧ (¬ window_in_range today ndays →
         get_insights date float_repr openai today arg db
         = Raise OverflowError)
  end.
Proof.
  intros Htoday. unfold get_insights.
  change (match arg with Some s => int_of_string s | None => Ok 7 end)
    with (days_of_arg arg).
  destruct (days_of_arg arg) as [ndays|e] eqn:Harg.
  - cbn [mbind result_bind]. split_and!.
    + intros ->. by injection Harg.
    + intros Hin.
      destruct (compute_summary_fits date float_repr _ _ db Htoday Hin)
        as [s Hs].
      rewrite Hs. cbn [mbind result_bind].
      rewrite (deterministic_insight_spec _ _ _ _ _ _ Hs).
      cbn [mbind result_bind]. eexists. split; [done|].
      apply compute_summary_inv in Hs as (Hdays & Hdates & _).
      cbn [insights_summary]. split; [done|].
      rewrite Hdates. unfold window. by rewrite length_fmap, length_seqZ.
    + intros Hout. by rewrite compute_summary_overflow.
  - destruct arg as [a|]; [|done]. apply int_of_string_error in Harg as ->.
    done.
Qed.

End InsightsExtras.

Lemma get_insights_outcome_witness :
  (∃ out, get_insights plain_date decimal_repr None example_today None
            example_db = Ok out
          ∧ length (dates (insights_summary out)) = 7%nat)
  ∧ get_insights plain_date decimal_repr None example_today (Some "7.5")
      example_db = Raise ValueError
  ∧ get_insights plain_date decimal_repr None example_today
      (Some "800000") example_db = Raise OverflowError.
Proof.
  assert (1 ≤ example_today ≤ max_ordinal) as Htoday by by vm_compute.
  pose proof (get_insights_outcome plain_date decimal_repr None
                example_today None example_db Htoday) as H1.
  pose proof (get_insights_outcome plain_date decimal_repr None
                example_today (Some "7.5") example_db Htoday) as H2.
  pose proof (get_insights_outcome plain_date decimal_repr None
                example_today (Some "800000") example_db Htoday) as H3.
  assert (days_of_arg (Some "7.5") = Raise ValueError) as E2
    by by vm_compute.
  assert (days_of_arg (Some "800000") = Ok 800000) as E3 by by vm_compute.
  rewrite E2 in H2. rewrite E3 in H3.
  change (days_of_arg None) with (@Ok Z 7) in H1. cbv iota in H1.
  split_and!.
  - destruct H1 as (_ & (out & Hout & _ & Hlen) & _).
    { unfold window_in_range, example_today, max_ordinal. lia. }
    exists out. split; [exact Hout|exact Hlen].
  - exact (proj2 H2).
  - apply (proj2 (proj2 H3)). unfold window_in_range, example_today, max_ordinal. lia.
Defined.

(** ** The store: inserts *)

Lemma foldr_max_init (m : Z) (l : list Z) :
  foldr Z.max m l = Z.max m (foldr Z.max 0 l) ∨ m < 0.
Proof.
  destruct (decide (m < 0)) as [|Hm]; [by right|left].
  induction l as [|x l IH]; cbn [foldr]; [lia|]. rewrite IH. lia.
Qed.

Lemma foldr_max_seqZ (k : nat) :
  foldr Z.max 0 (seqZ 1 (Z.of_nat k)) = Z.of_nat k.
Proof.
  induction k as [|k IH]; [done|].
  rewrite seqZ_S, foldr_app. cbn [foldr].
  destruct (foldr_max_init (Z.max (1 + Z.of_nat k) 0)
              (seqZ 1 (Z.of_nat k))) as [->|]; lia.
Qed.

Lemma next_rowid_consecutive (db : list measurement) :
  rowid <$> db = seqZ 1 (Z.of_nat (length db)) →
  next_rowid db = Z.of_nat (length db) + 1.
Proof.
  unfold next_rowid. intros Hids.
  assert (foldr (λ r acc, Z.max (rowid r) acc) 0 db
          = foldr Z.max 0 (rowid <$> db)) as ->.
  { clear Hids. induction db as [|r db IH]; [done|]. cbn. by rewrite IH. }
  rewrite Hids, foldr_max_seqZ. lia.
Qed.

Lemma rowids_increase_fmap (db : list measurement) :
  StronglySorted Z.lt (rowid <$> db) → rowids_increase db.
Proof.
  induction db as [|r db IH]; [constructor|]. csimpl.
  intros [Hs Hr]%StronglySorted_inv. constructor; [by apply IH|].
  rewrite Forall_fmap in Hr. exact Hr.
Qed.

(** X11: in a table that only inserts have filled the rowids are
    1, 2, 3, ... in insertion order: if they are so before an insert, the
    new row gets the number of rows plus one and they are so after it. *)
Theorem create_measurement_rowids (now : clock) (req : payload)
    (db db' : list measurement) (row : measurement) :
  rowid <$> db = seqZ 1 (Z.of_nat (length db)) →
  create_measurement now req db = Ok (db', row) →
  rowid row = Z.of_nat (length db) + 1
  ∧ rowid <$> db' = seqZ 1 (Z.of_nat (length db'))
  ∧ rowids_increase db'.
Proof.
  intros Hids Hc.
  apply create_measurement_appends in Hc as (-> & Hrow & Hinc).
  rewrite (next_rowid_consecutive _ Hids) in Hrow.
  split_and!; [done| |].
  - rewrite fmap_app, length_app, Hids. cbn [length fmap list_fmap].
    rewrite Nat2Z.inj_add, seqZ_app by lia. cbn. rewrite Hrow.
    f_equal. change (Z.pos 1) with (Z.succ 0).
    rewrite seqZ_cons, seqZ_nil by lia. f_equal. lia.
  - apply Hinc, rowids_increase_fmap.
    rewrite Hids. clear. generalize 1. induction (length db) as [|k IH];
      intros m.
    + constructor.
    + rewrite Nat2Z.inj_succ, seqZ_cons by lia.
      replace (Z.pred (Z.succ (Z.of_nat k))) with (Z.of_nat k) by lia.
      constructor; [apply IH|]. apply Forall_seqZ. lia.
Qed.

Lemma create_measurement_rowids_witness :
  ∃ row,
    create_measurement example_clock (example_payload ∅) example_db
    = Ok (example_db ++ [row], row)
    ∧ rowid row = 5.
Proof.
  destruct (create_measurement example_clock (example_payload ∅)
              example_db) as [[db' row]|e] eqn:E.
  - exists row.
    assert (rowid <$> example_db
            = seqZ 1 (Z.of_nat (length example_db))) as Hids
      by (vm_compute; reflexivity).
    destruct (create_measurement_rowids _ _ _ _ _ Hids E)
      as (Hrow & _ & _).
    vm_compute in E. injection E as <- <-.
    split; [reflexivity|exact Hrow].
  - vm_compute in E. discriminate E.
Defined.

(** ** The store: listing *)

Lemma string_leb_ltb_false (a b : string) :
  String.leb a b = true → String.ltb b a = false.
Proof.
  unfold String.leb, String.ltb. rewrite (String.compare_antisym a b).
  by destruct (String.compare b a).
Qed.

Lemma filter_none {A} (P : A → Prop) `{∀ x, Decision (P x)} (l : list A) :
  (∀ x, x ∈ l → ¬ P x) → filter P l = [].
Proof.
  induction l as [|x l IH]; intros Hl; [done|].
  rewrite filter_cons_False by (apply Hl; left).
  apply IH. intros y Hy. apply Hl. by right.
Qed.

(** Inserting into a sorted list commutes with filtering. *)
Lemma insert_row_filter (P : measurement → Prop) `{∀ x, Decision (P x)}
    (r : measurement) (l : list measurement) :
  StronglySorted at_most l →
  filter P (insert_row r l)
  = if decide (P r) then insert_row r (filter P l) else filter P l.
Proof.
  induction 1 as [|x l Hl IH Hx]; simpl.
  - rewrite filter_cons, filter_nil. by destruct (decide (P r)).
  - destruct (String.ltb (measured_at x) (measured_at r)) eqn:Hxr.
    + rewrite !(filter_cons _ x), IH.
      destruct (decide (P r)), (decide (P x)); try done.
      simpl. by rewrite Hxr.
    + rewrite (filter_cons _ r). destruct (decide (P r)) as [Hr|]; [|done].
      destruct (filter P (x :: l)) as [|y k] eqn:Hf; [done|]. simpl.
      assert (y ∈ x :: l) as Hy.
      { eapply list_elem_of_filter. rewrite Hf. left. }
      assert (at_most r y) as Hry.
      { apply string_not_ltb_leb in Hxr.
        apply elem_of_cons in Hy as [->|Hy]; [done|].
        eapply string_leb_trans; [exact Hxr|].
        by apply (proj1 (Forall_forall _ _) Hx). }
      by rewrite (string_leb_ltb_false _ _ Hry).
Qed.

Lemma order_by_filter (P : measurement → Prop) `{∀ x, Decision (P x)}
    (l : list measurement) :
  order_by_measured_at (filter P l) = filter P (order_by_measured_at l).
Proof.
  induction l as [|x l IH]; [done|]. cbn [order_by_measured_at foldr].
  rewrite insert_row_filter by apply order_by_sorted.
  rewrite filter_cons. fold (order_by_measured_at l).
  destruct (decide (P x)); [|done]. cbn [order_by_measured_at foldr].
  by rewrite <- IH.
Qed.

Section ListExtras.

Variable date : string → option string.

(** X12: an inverted range returns nothing: with a non-empty since that
    is after a non-empty until in the order of text, the listing is empty
    for every table. *)
Theorem list_inverted_range (lo hi : string) (db : list measurement) :
  lo ≠ "" → hi ≠ "" → String.ltb hi lo = true →
  list_measurements date (Some lo) (Some hi) db = Ok [].
Proof.
  intros Hlo Hhi Hlt. rewrite list_measurements_rows.
  rewrite filter_none; [done|]. intros r _.
  unfold where_clause, truthy.
  apply String.eqb_neq in Hlo, Hhi. rewrite Hlo, Hhi. simpl.
  unfold date_between.
  destruct (date (measured_at r)) as [d|]; [|intros Hf; exact Hf].
  intros [H1 H2]%Is_true_true%andb_prop.
  pose proof (string_leb_trans _ _ _ H1 H2) as H3.
  apply string_leb_ltb_false in H3. congruence.
Qed.

(** X13: the filters compose and keep the order: with both bounds given,
    the listing is the listing for since alone, in the same order, without
    the rows dated after until; the listing for since alone is the
    unfiltered listing without the rows dated before since or without a
    date; the unfiltered listing holds every row of the table once. *)
Theorem list_narrowing (lo hi : string) (db : list measurement) :
  lo ≠ "" → hi ≠ "" →
  ∃ every wide rows,
    list_measurements date None None db = Ok every
    ∧ list_measurements date (Some lo) None db = Ok wide
    ∧ list_measurements date (Some lo) (Some hi) db = Ok rows
    ∧ every ≡ₚ db
    ∧ wide = filter (λ r, date_ge date lo r) every
    ∧ rows = filter (λ r, date_le date hi r) wide.
Proof.
  intros Hlo Hhi. rewrite !list_measurements_rows.
  apply String.eqb_neq in Hlo, Hhi.
  assert (filter (λ r, where_clause date None None r) db = db) as ->.
  { clear. induction db as [|r db IH]; [done|].
    by rewrite filter_cons_True, IH. }
  assert (filter (λ r, where_clause date (Some lo) None r) db
          = filter (λ r, date_ge date lo r) db) as ->.
  { apply list_filter_iff. intros r. unfold where_clause, truthy.
    by rewrite Hlo. }
  assert (filter (λ r, where_clause date (Some lo) (Some hi) r) db
          = filter (λ r, date_le date hi r)
                   (filter (λ r, date_ge date lo r) db)) as ->.
  { rewrite list_filter_filter. apply list_filter_iff. intros r.
    unfold where_clause, truthy. rewrite Hlo, Hhi. simpl.
    unfold date_between, date_le, date_ge.
    destruct (date (measured_at r)) as [d|]; simpl; [|tauto].
    rewrite andb_True. tauto. }
  eexists _, _, _. split_and!; try reflexivity.
  - apply order_by_Permutation.
  - apply order_by_filter.
  - by rewrite <- !order_by_filter.
Qed.

(** X14: a row that an insert returns is listed at once: the listing of
    the new table is the old listing plus the new row when the row passes
    the filters, and the old listing otherwise; without filters it always
    holds the new row. *)
Theorem insert_then_list (now : clock) (req : payload)
    (db db' : list measurement) (row : measurement)
    (since until : option string) :
  create_measurement now req db = Ok (db', row) →
  ∃ rows rows',
    list_measurements date since until db = Ok rows
    ∧ list_measurements date since until db' = Ok rows'
    ∧ rows' ≡ₚ (if where_clause date since until row
                then row :: rows else rows)
    ∧ (truthy since = false → row ∈ rows').
Proof.
  intros (-> & _)%create_measurement_appends.
  rewrite !list_measurements_rows. eexists _, _.
  split_and!; try reflexivity.
  - rewrite !order_by_Permutation, filter_app, filter_cons, filter_nil.
    destruct (where_clause date since until row) eqn:Hw.
    + rewrite decide_True by done. rewrite order_by_Permutation.
      by rewrite <- Permutation_cons_append.
    + rewrite decide_False by (intros []). rewrite order_by_Permutation.
      by rewrite app_nil_r.
  - intros Hs. apply elem_of_order_by, list_elem_of_filter.
    split; [|apply elem_of_app; right; left].
    unfold where_clause. by rewrite Hs.
Qed.

End ListExtras.

Lemma list_inverted_range_witness :
  list_measurements plain_date (Some "2024-01-05") (Some "2024-01-03")
    example_db = Ok [].
Proof. by apply list_inverted_range. Defined.

Lemma list_narrowing_witness :
  ∃ wide rows,
    list_measurements plain_date (Some "2024-01-03") None example_db
    = Ok wide
    ∧ list_measurements plain_date (Some "2024-01-03") (Some "2024-01-04")
        example_db = Ok rows
    ∧ rows = filter (λ r, date_le plain_date "2024-01-04" r) wide.
Proof.
  destruct (list_narrowing plain_date "2024-01-03" "2024-01-04" example_db)
    as (every & wide & rows & _ & H2 & H3 & _ & _ & H6);
    [discriminate|discriminate|].
  exists wide, rows. split_and!; [exact H2|exact H3|exact H6].
Defined.

Lemma insert_then_list_witness :
  ∃ row rows',
    create_measurement example_clock (example_payload ∅) example_db
    = Ok (example_db ++ [row], row)
    ∧ list_measurements plain_date None None (example_db ++ [row])
      = Ok rows'
    ∧ row ∈ rows'.
Proof.
  destruct (create_measurement example_clock (example_payload ∅)
              example_db) as [[db' row]|e] eqn:E.
  - destruct (insert_then_list plain_date _ _ _ _ _ None None E)
      as (rows & rows' & _ & H2 & _ & H4).
    apply create_measurement_appends in E as (-> & _).
    exists row, rows'. split_and!; [reflexivity|exact H2|].
    apply H4. reflexivity.
  - vm_compute in E. discriminate E.
Defined.

(** ** The summary engine over a growing table *)

Lemma insert_row_snoc (x row : measurement) (k : list measurement) :
  at_most x row → insert_row x (k ++ [row]) = insert_row x k ++ [row].
Proof.
  intros Hx%string_leb_ltb_false. induction k as [|y k IH]; simpl.
  - by rewrite Hx.
  - destruct (String.ltb (measured_at y) (measured_at x)); [|done].
    by rewrite IH.
Qed.

(** A row appended to the table comes last in the query when no row has a
    later text: the sort is stable. *)
Lemma order_by_snoc (l : list measurement) (row : measurement) :
  (∀ x, x ∈ l → at_most x row) →
  order_by_measured_at (l ++ [row]) = order_by_measured_at l ++ [row].
Proof.
  unfold order_by_measured_at.
  induction l as [|x l IH]; intros Hl; [done|]. simpl.
  rewrite IH by (intros y Hy; apply Hl; by right).
  apply insert_row_snoc, Hl. left.
Qed.

Section InsertSummary.

Variable date : string → option string.
Variable float_repr : pyfloat → string.

(** Whether the summary is computed does not depend on the table. *)
Lemma compute_summary_any_table (today ndays : Z)
    (db db' : list measurement) (s : summary) :
  compute_summary date float_repr today ndays db = Ok s →
  ∃ s', compute_summary date float_repr today ndays db' = Ok s'.
Proof.
  unfold compute_summary.
  intros (delta & Hd & (cutoff & Hc & H)%bind_Ok)%bind_Ok.
  apply bind_Ok in H as (days_list & Hdays & _).
  rewrite Hd. cbn [mbind result_bind]. rewrite Hc. cbn [mbind result_bind].
  rewrite Hdays. cbn [mbind result_bind].
  repeat match goal with
  | |- context [key_stats ?v] =>
      destruct (key_stats_Ok v) as (? & _ & ->); cbn [mbind result_bind]
  end.
  rewrite (anomaly_loop_spec _ _ _ _ 0)
    by (rewrite !length_map; simpl; lia).
  cbn [mbind result_bind]. eauto.
Qed.

(** X15: a row outside the window never changes the summary: taking out of
    the table a row that the query does not fetch, or one whose day (the
    first ten characters of measured_at) is not a date of the window,
    leaves the dates, the five series, the statistics and the anomalies
    as they were. *)
Theorem summary_ignores_other_days (today ndays : Z)
    (db1 db2 : list measurement) (r : measurement) (s : summary) :
  compute_summary date float_repr today ndays (db1 ++ r :: db2) = Ok s →
  day_key r ∉ window today ndays
  ∨ date_ge date (isoformat (today - (ndays - 1))) r = false →
  ∃ s', compute_summary date float_repr today ndays (db1 ++ db2) = Ok s'
        ∧ days s' = days s ∧ dates s' = dates s
        ∧ (∀ key, series s' key = series s key)
        ∧ (∀ key, stats s' key = stats s key)
        ∧ anomalies s' = anomalies s.
Proof.
  intros Hs Hr.
  destruct (compute_summary_any_table _ _ _ (db1 ++ db2) _ Hs) as [s' Hs'].
  exists s'. split; [done|].
  apply compute_summary_inv in Hs as (Hn & Hd & Hser & Hst & Han).
  apply compute_summary_inv in Hs' as (Hn' & Hd' & Hser' & Hst' & Han').
  assert (∀ key, series s' key = series s key) as Heq.
  { intros key. rewrite Hser, Hser'. apply map_ext_in.
    intros d Hdw%list_elem_of_In.
    unfold slot. rewrite !build_by_day_lookup. unfold fetched.
    rewrite <- !order_by_filter, !list_filter_filter.
    rewrite (filter_app _ db1 (r :: db2)), filter_cons.
    destruct (decide _) as [[Hk Hge]|_]; [|by rewrite <- filter_app].
    destruct Hr as [Hr|Hr].
    - destruct Hr. by rewrite Hk.
    - rewrite Hr in Hge. done. }
  split_and!.
  - congruence.
  - congruence.
  - done.
  - intros key. specialize (Hst key). specialize (Hst' key).
    rewrite Heq in Hst'. congruence.
  - by rewrite Han, Han', Hd, Hd', !Heq.
Qed.

(** X16: a reading shows up in the summary as soon as it is stored: after
    an insert, when the new row is fetched for the window and every
    earlier row of its day has an earlier measured_at, the slots of that
    day in the five series hold the numbers stored in the new row. *)
Theorem new_reading_in_summary (now : clock) (req : payload)
    (db db' : list measurement) (row : measurement) (today ndays : Z)
    (s : summary) (i : nat) :
  create_measurement now req db = Ok (db', row) →
  compute_summary date float_repr today ndays db' = Ok s →
  date_ge date (isoformat (today - (ndays - 1))) row = true →
  dates s !! i = Some (day_key row) →
  (∀ r, r ∈ db → day_key r = day_key row →
        String.ltb (measured_at r) (measured_at row) = true) →
  series s RestingHr !! i = Some (of_Z <$> resting_hr row)
  ∧ series s Hrv !! i = Some (hrv row)
  ∧ series s RespiratoryRate !! i = Some (respiratory_rate row)
  ∧ series s BodyTemp !! i = Some (body_temp row)
  ∧ series s Spo2 !! i = Some (spo2 row).
Proof.
  intros (-> & _)%create_measurement_appends
    (_ & Hd & Hser & _)%compute_summary_inv Hge Hi Hlast.
  rewrite Hd in Hi.
  assert (build_by_day (fetched date today ndays (db ++ [row]))
            !! day_key row = Some row) as Hrow.
  { rewrite build_by_day_lookup. unfold fetched.
    rewrite <- order_by_filter, list_filter_filter, filter_app.
    rewrite filter_cons_True, filter_nil by (by rewrite Hge).
    rewrite order_by_snoc, last_snoc; [done|].
    intros x [[Hx _] Hin]%list_elem_of_filter.
    by apply string_ltb_leb, Hlast. }
  split_and!; rewrite Hser, list_lookup_fmap, Hi; simpl; unfold slot;
    by rewrite Hrow.
Qed.

End InsertSummary.

Lemma summary_ignores_other_days_witness :
  ∃ s s',
    compute_summary plain_date decimal_repr example_today 2 example_db
    = Ok s
    ∧ compute_summary plain_date decimal_repr example_today 2
        (tail example_db) = Ok s'
    ∧ ∀ key, series s' key = series s key.
Proof.
  destruct (compute_summary plain_date decimal_repr example_today 2
              example_db) as [s|e] eqn:E.
  - destruct (summary_ignores_other_days plain_date decimal_repr
                example_today 2 [] (tail example_db)
                (example_row 1 "2024-01-03T08:00:00" 60
                   (Some (Fin 50)) (Some (Fin 38.2)) (Some (Fin 90)))
                s E) as (s' & Hs' & _ & _ & Hser & _).
    { right. vm_compute. reflexivity. }
    exists s, s'. split_and!; [reflexivity|exact Hs'|exact Hser].
  - vm_compute in E. discriminate E.
Defined.

Lemma new_reading_in_summary_witness :
  ∃ row s,
    create_measurement example_clock
      (example_payload {[ "hrv" := JInt 52; "spo2" := JStr "96.5" ]})
      example_db
    = Ok (example_db ++ [row], row)
    ∧ compute_summary plain_date decimal_repr example_today 3
        (example_db ++ [row]) = Ok s
    ∧ series s RestingHr !! 2%nat = Some None
    ∧ series s Hrv !! 2%nat = Some (Some (of_Z 52))
    ∧ series s Spo2 !! 2%nat = Some (Some (Fin 96.5)).
Proof.
  destruct (create_measurement example_clock
              (example_payload {[ "hrv" := JInt 52; "spo2" := JStr "96.5" ]})
              example_db)
    as [[db' row]|e] eqn:E.
  - pose proof (create_measurement_appends _ _ _ _ _ E) as (Hdb & _).
    subst db'.
    assert (measured_at row = "2024-01-05T12:00:00.000000"
            ∧ resting_hr row = None ∧ hrv row = Some (of_Z 52)
            ∧ spo2 row = Some (Fin 96.5)) as (Hat & Hrhr & Hhrv & Hspo2).
    { vm_compute in E. injection E as _ <-.
      split_and!; vm_compute; reflexivity. }
    destruct (compute_summary plain_date decimal_repr example_today 3
                (example_db ++ [row])) as [s|e] eqn:E2.
    + exists row, s. split; [reflexivity|]. split; [exact E2|].
      destruct (new_reading_in_summary plain_date decimal_repr _ _ _ _ _ _
                  _ _ 2%nat E E2) as (H1 & H2 & _ & _ & H5).
      * unfold date_ge. rewrite Hat. vm_compute. reflexivity.
      * apply compute_summary_inv in E2 as (_ & -> & _).
        unfold day_key. rewrite Hat. vm_compute. reflexivity.
      * intros r Hr _. rewrite Hat.
        unfold example_db in Hr. rewrite !elem_of_cons in Hr.
        destruct Hr as [->|[->|[->|[->|Hr]]]];
          [vm_compute; reflexivity..|].
        apply elem_of_nil in Hr. destruct Hr.
      * rewrite Hrhr in H1. rewrite Hhrv in H2. rewrite Hspo2 in H5.
        split_and!; [exact H1|exact H2|exact H5].
    + exfalso.
      destruct (compute_summary_returns plain_date decimal_repr
                  example_today 3 (example_db ++ [row])) as [s Hs];
        [unfold example_today, max_ordinal; lia..|].
      rewrite Hs in E2. discriminate E2.
  - vm_compute in E. discriminate E.
Defined.
